(** * uigen: the tool-invocation classifier, its display component and the
    post-authentication project resolver.

    Sources embedded here:
    - [src/lib/utils/tool-message-parser.ts]: [extractFileName],
      [parseStrReplaceEditor], [parseFileManager], [parseToolInvocation];
    - [ToolCallDisplay], the component that renders one tool invocation;
    - the [useAuth] hook, whose source is not part of the tree (only its test
      suite is): it is embedded from the specification, section 4.3.

    The TypeScript functions take arguments typed [any].  The values that
    reach them are tool-call arguments, i.e. JSON data, so the embedding works
    over JSON-shaped JavaScript values and keeps the one way those functions
    can fail at run time: a [TypeError].

    The first part of the file holds the definitions, the second part the
    lemmas and theorems about the classifier and the hook, the third part the
    render of the component and further properties of the embedded code. *)

From Stdlib Require Import String Ascii List ZArith Lia Bool.
From Stdlib Require Import Floats.SpecFloat.
From stdpp Require Import base option strings list gmap pretty sorting.

Set Warnings "-register-all".

(** * Part I: definitions *)

(** ** JavaScript values and completions *)

Module Js.

(** JSON-shaped JavaScript values.  Numbers are IEEE 754 doubles, objects are
    finite maps from property names to values. *)
Inductive value : Type :=
| VUndefined
| VNull
| VBool (b : bool)
| VNumber (x : spec_float)
| VString (s : string)
| VArray (items : list value)
| VObject (props : gmap string value).

Inductive exn : Type :=
| TypeError (msg : string)
| Error (msg : string).

(** The outcome of evaluating an expression: a value or a thrown exception. *)
Inductive completion (A : Type) : Type :=
| Normal (a : A)
| Throw (e : exn).

Arguments Normal {A} a.
Arguments Throw {A} e.

Definition bind {A B} (c : completion A) (k : A -> completion B) : completion B :=
  match c with
  | Normal a => k a
  | Throw e => Throw e
  end.

Definition returns {A} (c : completion A) : Prop := exists a, c = Normal a.

Definition throws {A} (c : completion A) : Prop := exists e, c = Throw e.

(** [ToBoolean]: the falsy values are [undefined], [null], [false], [+0],
    [-0], [NaN] and the empty string. *)
Definition truthy (v : value) : bool :=
  match v with
  | VUndefined | VNull => false
  | VBool b => b
  | VNumber (S754_zero _) | VNumber S754_nan => false
  | VNumber _ => true
  | VString EmptyString => false
  | VString _ => true
  | VArray _ | VObject _ => true
  end.

(** [a || b] *)
Definition or_else (a b : value) : value := if truthy a then a else b.

(** [v === s] for a string literal [s]: no coercion takes place. *)
Definition strict_eq_string (v : value) (s : string) : bool :=
  match v with
  | VString t => String.eqb t s
  | _ => false
  end.

(** Reading property [k] as object destructuring does ([const { k } = obj]).
    [null] and [undefined] cannot be destructured.  Primitives and arrays are
    boxed and have no own property under the names used here ([command],
    [path], [new_path]), nor do their prototypes. *)
Definition get (obj : value) (k : string) : completion value :=
  match obj with
  | VUndefined | VNull =>
      Throw (TypeError ("Cannot destructure property '" +:+ k +:+ "'"))
  | VObject props => Normal (default VUndefined (props !! k))
  | VBool _ | VNumber _ | VString _ | VArray _ => Normal VUndefined
  end.

(** [String.prototype.split] with a one-character separator. *)
Fixpoint split (sep : ascii) (s : string) : list string :=
  match s with
  | EmptyString => [EmptyString]
  | String c rest =>
      if Ascii.eqb c sep then EmptyString :: split sep rest
      else match split sep rest with
           | seg :: segs => String c seg :: segs
           | [] => [String c EmptyString]
           end
  end.

(** The method call [v.split(sep)].  Only strings have a [split] method: on a
    number, boolean, array or JSON object the property is missing or not
    callable, and the call throws. *)
Definition call_split (v : value) (sep : ascii) : completion (list string) :=
  match v with
  | VString s => Normal (split sep s)
  | _ => Throw (TypeError "path.split is not a function")
  end.

(** [Array.prototype.filter(Boolean)] on an array of strings. *)
Definition filter_Boolean (parts : list string) : list string :=
  List.filter (fun s => truthy (VString s)) parts.

(** An object literal [{ k1: v1, ... }]. *)
Definition js_object (fields : list (string * value)) : value :=
  VObject (list_to_map fields).

End Js.

Import Js.

Notation "'let!' x ':=' c 'in' k" := (bind c (fun x => k))
  (at level 10, x name, c at level 100, k at level 200).

(** ** tool-message-parser.ts *)

Inductive LucideIcon : Type :=
| FilePlus | FileEdit | FileX | FileSymlink | Eye | Undo
| Loader2 | CheckCircle2 | ChevronDown | ChevronRight.

(** [filePath] is declared [string] in the interface but holds [path || ""],
    whatever [path] is at run time; [details] is the optional field. *)
Record ToolMessage : Type := mkToolMessage {
  action : string;
  fileName : string;
  filePath : value;
  icon : LucideIcon;
  colorClass : string;
  bgColorClass : string;
  borderColorClass : string;
  details : option string
}.

Definition slash : ascii := "/"%char.

Definition extractFileName (path : value) : completion string :=
  if negb (truthy path) || strict_eq_string path "/" then Normal "/"
  else
    let! parts0 := call_split path slash in
    let parts := filter_Boolean parts0 in
    Normal (if 0 <? length parts then List.last parts "/" else "/").

Definition parseStrReplaceEditor (args : value) : completion ToolMessage :=
  let obj := or_else args (VObject ∅) in
  let! command := get obj "command" in
  let! path := get obj "path" in
  let! fileName := extractFileName (or_else path (VString "")) in
  let filePath := or_else path (VString "") in
  if strict_eq_string command "create" then
    Normal (mkToolMessage "Creating" fileName filePath FilePlus
              "text-green-600" "bg-green-50" "border-green-200" None)
  else if strict_eq_string command "str_replace"
          || strict_eq_string command "insert" then
    Normal (mkToolMessage "Editing" fileName filePath FileEdit
              "text-amber-600" "bg-amber-50" "border-amber-200" None)
  else if strict_eq_string command "view" then
    Normal (mkToolMessage "Viewing" fileName filePath Eye
              "text-blue-600" "bg-blue-50" "border-blue-200" None)
  else if strict_eq_string command "undo_edit" then
    Normal (mkToolMessage "Undoing changes to" fileName filePath Undo
              "text-neutral-600" "bg-neutral-50" "border-neutral-200" None)
  else
    Normal (mkToolMessage "Processing" fileName filePath FileEdit
              "text-neutral-600" "bg-neutral-50" "border-neutral-200" None).

Definition parseFileManager (args : value) : completion ToolMessage :=
  let obj := or_else args (VObject ∅) in
  let! command := get obj "command" in
  let! path := get obj "path" in
  let! new_path := get obj "new_path" in
  let! fileName := extractFileName (or_else path (VString "")) in
  let filePath := or_else path (VString "") in
  if strict_eq_string command "delete" then
    Normal (mkToolMessage "Deleting" fileName filePath FileX
              "text-red-600" "bg-red-50" "border-red-200" None)
  else if strict_eq_string command "rename" then
    let! newFileName := extractFileName (or_else new_path (VString "")) in
    Normal (mkToolMessage "Renaming" fileName filePath FileSymlink
              "text-purple-600" "bg-purple-50" "border-purple-200"
              (Some ("to " +:+ newFileName)))
  else
    Normal (mkToolMessage "Processing" fileName filePath FileSymlink
              "text-neutral-600" "bg-neutral-50" "border-neutral-200" None).

Definition parseToolInvocation (toolName : string) (args : value)
  : completion ToolMessage :=
  if String.eqb toolName "str_replace_editor" then parseStrReplaceEditor args
  else if String.eqb toolName "file_manager" then parseFileManager args
  else
    Normal (mkToolMessage "Running" toolName (VString "") FileEdit
              "text-neutral-600" "bg-neutral-50" "border-neutral-200" None).

(** ** Vocabulary of the statements about the classifier *)

Fixpoint all_slash (s : string) : bool :=
  match s with
  | EmptyString => true
  | String c rest => Ascii.eqb c slash && all_slash rest
  end.

Fixpoint no_slash (s : string) : bool :=
  match s with
  | EmptyString => true
  | String c rest => negb (Ascii.eqb c slash) && no_slash rest
  end.

(** [seg] is the last non-empty [/]-delimited segment of [p]: a non-empty run
    without separator, preceded by the start of [p] or by a separator, and
    followed by separators only. *)
Definition is_last_segment (p seg : string) : Prop :=
  seg <> "" /\ no_slash seg = true /\
  exists pre suf,
    p = pre +:+ seg +:+ suf /\ all_slash suf = true /\
    (pre = "" \/ exists pre', pre = pre' +:+ "/").

(** The join that [split] undoes: [parts.join("/")]. *)
Definition join (parts : list string) : string := String.concat "/" parts.

Definition is_empty (s : string) : bool := negb (truthy (VString s)).

(** The data model types [path] and [new_path] as strings that may be absent.
    [string_or_falsy] is that shape at run time: a string, or anything that
    [|| ""] replaces by the empty string. *)
Definition string_or_falsy (v : value) : bool :=
  match v with
  | VString _ => true
  | _ => negb (truthy v)
  end.

(** The string that [v || ""] denotes for such a value. *)
Definition as_string (v : value) : string :=
  match v with
  | VString s => s
  | _ => ""
  end.

(** [args.k] for an argument record given by its properties. *)
Definition prop (a : gmap string value) (k : string) : value :=
  default VUndefined (a !! k).

(** The argument records of the data model: the recognised keys [command],
    [path] and [new_path] hold strings and may be absent, other keys are
    ignored. *)
Record ToolInvocationArgs : Type := mkArgs {
  arg_command : option string;
  arg_path : option string;
  arg_new_path : option string;
  arg_others : gmap string value
}.

Definition set_field (k : string) (v : option string) (props : gmap string value)
  : gmap string value :=
  match v with
  | Some s => <[k := VString s]> props
  | None => delete k props
  end.

(** The properties of such a record as a JavaScript object. *)
Definition fields (a : ToolInvocationArgs) : gmap string value :=
  set_field "command" (arg_command a)
    (set_field "path" (arg_path a)
       (set_field "new_path" (arg_new_path a) (arg_others a))).

Definition to_value (a : ToolInvocationArgs) : value := VObject (fields a).

(** An optional string as the value of a property. *)
Definition of_option (v : option string) : value :=
  match v with
  | Some s => VString s
  | None => VUndefined
  end.

(** The [command] that both classifiers read from [args || {}]. *)
Definition read_command (args : value) : completion value :=
  get (or_else args (VObject ∅)) "command".

(** The two recognised tool names. *)
Definition is_file_tool (toolName : string) : bool :=
  String.eqb toolName "str_replace_editor" || String.eqb toolName "file_manager".

(** The classifier returns a descriptor whose [fileName] is the root marker. *)
Definition falls_back_to_root (toolName : string) (args : value) : Prop :=
  exists d, parseToolInvocation toolName args = Normal d /\ fileName d = "/".

(** The property [k] that the classifiers read from [args || {}], for any
    [args]: a falsy [args] is replaced by the empty record, and a primitive or
    an array has no such property. *)
Definition field (args : value) (k : string) : value :=
  match or_else args (VObject ∅) with
  | VObject props => prop props k
  | _ => VUndefined
  end.

(** The record that [args] stands for once it is read that way. *)
Definition props_of (args : value) : gmap string value :=
  match or_else args (VObject ∅) with
  | VObject props => props
  | _ => ∅
  end.

(** The arguments on which the classifier returns a descriptor: [path] has to
    be a string or falsy for the two file tools, and so has [new_path] in the
    rename branch, the only one that reads it. *)
Definition accepts (toolName : string) (args : value) : bool :=
  if String.eqb toolName "str_replace_editor" then
    string_or_falsy (field args "path")
  else if String.eqb toolName "file_manager" then
    string_or_falsy (field args "path") &&
    (if strict_eq_string (field args "command") "delete" then true
     else if strict_eq_string (field args "command") "rename"
          then string_or_falsy (field args "new_path")
          else true)
  else true.

(** The commands the file-editor tool recognises. *)
Definition editor_command (command : value) : bool :=
  strict_eq_string command "create" || strict_eq_string command "str_replace"
  || strict_eq_string command "insert" || strict_eq_string command "view"
  || strict_eq_string command "undo_edit".

(** The commands the file-manager tool recognises. *)
Definition manager_command (command : value) : bool :=
  strict_eq_string command "delete" || strict_eq_string command "rename".

(** The style tokens of one colour family. *)
Definition triad (family : string) (d : ToolMessage) : Prop :=
  colorClass d = "text-" +:+ family +:+ "-600" /\
  bgColorClass d = "bg-" +:+ family +:+ "-50" /\
  borderColorClass d = "border-" +:+ family +:+ "-200".

(** The colour family that goes with each action verb. *)
Definition family_of_action (action : string) : option string :=
  if String.eqb action "Creating" then Some "green"
  else if String.eqb action "Editing" then Some "amber"
  else if String.eqb action "Viewing" then Some "blue"
  else if String.eqb action "Deleting" then Some "red"
  else if String.eqb action "Renaming" then Some "purple"
  else if String.eqb action "Undoing changes to" || String.eqb action "Processing"
          || String.eqb action "Running" then Some "neutral"
  else None.

(** ** ToolCallDisplay *)

Module Display.

Inductive InvocationState : Type := PartialCall | Call | Result.

(** [result] is optional: a missing field reads as [undefined]. *)
Record ToolInvocation : Type := mkToolInvocation {
  toolCallId : string;
  toolName : string;
  args : value;
  state : InvocationState;
  result : value
}.

(** [state === "result"] *)
Definition state_is_result (s : InvocationState) : bool :=
  match s with
  | Result => true
  | PartialCall | Call => false
  end.

(** [v !== undefined] *)
Definition is_defined (v : value) : bool :=
  match v with
  | VUndefined => false
  | _ => true
  end.

Definition isCompleted (inv : ToolInvocation) : bool :=
  state_is_result (state inv) && is_defined (result inv).

(** The component's local state [isExpanded] and its two handlers. *)
Definition handleToggle (isExpanded : bool) : bool := negb isExpanded.

Definition handleKeyDown (key : string) (isExpanded : bool) : bool :=
  if String.eqb key "Enter" || String.eqb key " "
  then handleToggle isExpanded
  else isExpanded.

(** The clickable header row of the rendered element: the state indicator,
    the operation icon, the label, the optional details and the chevron.  The
    expanded panel below it is part of [render]. *)
Record Header : Type := mkHeader {
  ariaExpanded : bool;
  ariaLabel : string;
  indicator : LucideIcon;
  operationIcon : LucideIcon;
  label : string;
  detailsText : option string;
  chevron : LucideIcon
}.

(** [message.details] used as a condition: a present, non-empty string. *)
Definition shown_details (message : ToolMessage) : option string :=
  match details message with
  | Some d => if truthy (VString d) then Some d else None
  | None => None
  end.

(** One render of the component.  The classifier runs during the render, so an
    exception of the classifier is an exception of the render. *)
Definition ToolCallDisplay (inv : ToolInvocation) (isExpanded : bool)
  : completion Header :=
  let completed := isCompleted inv in
  let! message := parseToolInvocation (toolName inv) (args inv) in
  Normal {|
    ariaExpanded := isExpanded;
    ariaLabel :=
      action message +:+ " " +:+ fileName message +:+
      match shown_details message with
      | Some d => " " +:+ d
      | None => ""
      end;
    indicator := if completed then CheckCircle2 else Loader2;
    operationIcon := icon message;
    label := action message +:+ " " +:+ fileName message;
    detailsText := shown_details message;
    chevron := if isExpanded then ChevronDown else ChevronRight
  |}.

(** The invocation is completed as the component understands it. *)
Definition completed_invocation (inv : ToolInvocation) : Prop :=
  state inv = Result /\ result inv <> VUndefined.

(** *** The expanded panel *)

(** [args?.k]: optional chaining followed by a property read.  It never
    throws; only an object has the properties read here. *)
Definition opt_get (obj : value) (k : string) : value :=
  match obj with
  | VObject props => default VUndefined (props !! k)
  | _ => VUndefined
  end.

(** The value of a JSX expression [{cond && <element/>}]: the element when the
    condition is truthy, and otherwise the falsy condition itself. *)
Inductive jsx (A : Type) : Type :=
| Element (a : A)
| Skipped (v : value).

Arguments Element {A} a.
Arguments Skipped {A} v.

Definition jsx_and {A} (cond : value) (element : A) : jsx A :=
  if truthy cond then Element element else Skipped cond.

Definition is_element {A} (j : jsx A) : bool :=
  match j with
  | Element _ => true
  | Skipped _ => false
  end.

(** What React accepts as a child of an element: text, numbers, booleans,
    [null], [undefined], and arrays of such.  A plain object is not a valid
    child, neither directly nor inside an array. *)
Fixpoint renderable (v : value) : bool :=
  match v with
  | VObject _ => false
  | VArray items => forallb renderable items
  | VUndefined | VNull | VBool _ | VNumber _ | VString _ => true
  end.

(** Rendering [{v}] as a child.  React reports an invalid child with an
    [Error]; its message, which also lists the keys of the object, is
    abbreviated here. *)
Definition react_child (v : value) : completion value :=
  if renderable v then Normal v
  else Throw (Error "Objects are not valid as a React child").

(** A row [{cond && <div>... {child}</div>}]: the child is rendered only when
    the condition is truthy, and otherwise React is handed the falsy
    condition, which renders as nothing or as the text of [0] or [NaN]. *)
Definition jsx_row (cond child : value) : completion (jsx value) :=
  if truthy cond
  then let! shown := react_child child in Normal (Element shown)
  else Normal (Skipped cond).

(** The rows of the panel; each optional row holds the expression it shows. *)
Record Panel : Type := mkPanel {
  toolRow : string;
  commandRow : jsx value;
  pathRow : jsx value;
  newPathRow : jsx value;
  resultRow : jsx string
}.

Record Rendered : Type := mkRendered {
  header : Header;
  panel : jsx Panel
}.

Section Render.

(** [JSON.stringify(result, null, 2)], a built-in that is not embedded. *)
Variable JSON_stringify : value -> string.

(** [typeof result === "string" ? result : JSON.stringify(result, null, 2)] *)
Definition result_text (result : value) : string :=
  match result with
  | VString s => s
  | _ => JSON_stringify result
  end.

(** [isCompleted && result && <div>...</div>] *)
Definition result_block (inv : ToolInvocation) : jsx string :=
  if isCompleted inv
  then jsx_and (result inv) (result_text (result inv))
  else Skipped (VBool false).

(** The panel [<div>...</div>] of the expanded component, row by row. *)
Definition render_panel (inv : ToolInvocation) (message : ToolMessage)
  : completion Panel :=
  let! command := jsx_row (opt_get (args inv) "command")
                          (opt_get (args inv) "command") in
  let! path := jsx_row (filePath message) (filePath message) in
  let! new_path := jsx_row (opt_get (args inv) "new_path")
                           (opt_get (args inv) "new_path") in
  Normal {|
    toolRow := toolName inv;
    commandRow := command;
    pathRow := path;
    newPathRow := new_path;
    resultRow := result_block inv
  |}.

(** One render of the whole component: the classifier runs in the body of the
    component, then the header row is rendered and, below it,
    [isExpanded && <div>...</div>].  The header is the one of
    [ToolCallDisplay], built from the same message. *)
Definition render (inv : ToolInvocation) (isExpanded : bool) : completion Rendered :=
  let! message := parseToolInvocation (toolName inv) (args inv) in
  let! head := ToolCallDisplay inv isExpanded in
  let! below :=
    if isExpanded
    then let! rows := render_panel inv message in Normal (Element rows)
    else Normal (Skipped (VBool false)) in
  Normal {| header := head; panel := below |}.

End Render.

(** The invocations and expansion states that render: the classifier has to
    accept the arguments, and with the panel expanded [args.command] and
    [args.new_path] have to be valid children. *)
Definition renders (inv : ToolInvocation) (isExpanded : bool) : bool :=
  accepts (toolName inv) (args inv) &&
  (negb isExpanded ||
   (renderable (opt_get (args inv) "command") &&
    renderable (opt_get (args inv) "new_path"))).

End Display.

(** ** The [useAuth] hook and the post-authentication resolver *)

Module Auth.

Record AuthResult : Type := mkAuthResult {
  success : bool;
  error : option string
}.

Record Project : Type := mkProject {
  id : string;
  updatedAt : Z
}.

Inductive AuthKind : Type := SignIn | SignUp.

(** Modelled from the spec: the ordering that determines the most recent
    project, "ordering by updatedAt descending" (section 3); the source of the
    hook is missing. *)
Definition more_recent (p q : Project) : Prop := (updatedAt q <= updatedAt p)%Z.

#[global] Instance more_recent_dec : RelDecision more_recent.
Proof. intros p q. unfold more_recent. apply _. Defined.

(** Modelled from the spec: "select the one with the most recent updatedAt"
    from a listing whose order is not guaranteed, which "the resolver must
    sort" (sections 4.3 and 6); the source of the hook is missing. *)
Definition most_recent (projects : list Project) : option Project :=
  head (merge_sort more_recent projects).

Section Resolver.

(** [World] is everything outside the hook: the server behind the actions, the
    browser store of anonymous work, the router, the clock and the random
    source.  [Message] and [FileRecord] are the chat message and file records,
    which the resolver only passes along. *)
Context {World Message FileRecord : Type}.

Record AnonymousWork : Type := mkAnonymousWork {
  messages : list Message;
  fileSystemData : gmap string FileRecord
}.

(** The argument of [createProject]: [{ name, messages, data }]. *)
Record ProjectSpec : Type := mkProjectSpec {
  name : string;
  project_messages : list Message;
  data : gmap string FileRecord
}.

(** A call to a collaborator: it may change the world and may throw. *)
Definition call (A : Type) : Type := World -> completion A * World.

(** Modelled from the spec: the external interfaces of section 6, under the
    names the test suite mocks them with; the source of the hook, which
    imports them, is missing. *)
Record Collaborators : Type := mkCollaborators {
  signInAction : string -> string -> call AuthResult;
  signUpAction : string -> string -> call AuthResult;
  getAnonWorkData : call (option AnonymousWork);
  clearAnonWork : call unit;
  getProjects : call (list Project);
  createProject : ProjectSpec -> call Project;
  navigateTo : string -> call unit;
  localeTimeString : World -> string * World;
  randomInteger : World -> Z * World
}.

(** What the hook was observed to invoke, in order. *)
Inductive Invocation : Type :=
| CallAuth (kind : AuthKind) (email password : string)
| CallGetAnonWorkData
| CallClearAnonWork
| CallGetProjects
| CallCreateProject (spec : ProjectSpec)
| CallNavigateTo (path : string).

Record HookState : Type := mkHookState {
  world : World;
  isLoading : bool;
  calls : list Invocation
}.

(** Computations of the hook: state passing with exceptions. *)
Definition M (A : Type) : Type := HookState -> completion A * HookState.

Definition ret {A} (a : A) : M A := fun st => (Normal a, st).

Definition hook_bind {A B} (m : M A) (k : A -> M B) : M B :=
  fun st =>
    match m st with
    | (Normal a, st') => k a st'
    | (Throw e, st') => (Throw e, st')
    end.

(** [try { body } finally { cleanup }]: the cleanup runs on both exits and the
    outcome of the body is kept unless the cleanup itself throws. *)
Definition try_finally {A} (body : M A) (cleanup : M unit) : M A :=
  fun st =>
    match body st with
    | (outcome, st') =>
        match cleanup st' with
        | (Normal _, st'') => (outcome, st'')
        | (Throw e, st'') => (Throw e, st'')
        end
    end.

Definition setIsLoading (b : bool) : M unit :=
  fun st => (Normal tt, mkHookState (world st) b (calls st)).

(** Invoking a collaborator records the invocation, whatever its outcome. *)
Definition invoke {A} (what : Invocation) (f : call A) : M A :=
  fun st =>
    match f (world st) with
    | (outcome, w) => (outcome, mkHookState w (isLoading st) (calls st ++ [what]))
    end.

(** Reading the clock or the random source. *)
Definition read {A} (f : World -> A * World) : M A :=
  fun st =>
    match f (world st) with
    | (a, w) => (Normal a, mkHookState w (isLoading st) (calls st))
    end.

Notation "'do!' x ':=' c 'in' k" := (hook_bind c (fun x => k))
  (at level 10, x name, c at level 100, k at level 200).

Variable C : Collaborators.

(** Modelled from the spec: anonymous work is "present" only with a non-empty
    message sequence (section 3); the source of the hook is missing. *)
Definition anon_work_present (anonWork : option AnonymousWork) : bool :=
  match anonWork with
  | Some work => 0 <? length (messages work)
  | None => false
  end.

(** Modelled from the spec: the branch taken without anonymous work (section
    4.3): list the projects, go to the most recent one, or create
    ["New Design #n"] with [n] in [0, 100000) when there is none; the source
    of the hook is missing. *)
Definition resolveFromProjects : M unit :=
  do! projects := invoke CallGetProjects (getProjects C) in
  match most_recent projects with
  | Some project =>
      invoke (CallNavigateTo ("/" +:+ id project))
             (navigateTo C ("/" +:+ id project))
  | None =>
      do! n := read (randomInteger C) in
      let spec :=
        mkProjectSpec ("New Design #" +:+ pretty (n `mod` 100000)%Z) [] ∅ in
      do! newProject := invoke (CallCreateProject spec) (createProject C spec) in
      invoke (CallNavigateTo ("/" +:+ id newProject))
             (navigateTo C ("/" +:+ id newProject))
  end.

(** Modelled from the spec: the resolver after the anonymous-work read
    (section 4.3): with anonymous work present, create a project from it,
    clear the store and navigate; the source of the hook is missing. *)
Definition resolveWith (anonWork : option AnonymousWork) : M unit :=
  match anonWork with
  | Some work =>
      if anon_work_present (Some work) then
        do! now := read (localeTimeString C) in
        let spec :=
          mkProjectSpec ("Design from " +:+ now)
                        (messages work) (fileSystemData work) in
        do! project := invoke (CallCreateProject spec) (createProject C spec) in
        do! _ := invoke CallClearAnonWork (clearAnonWork C) in
        invoke (CallNavigateTo ("/" +:+ id project))
               (navigateTo C ("/" +:+ id project))
      else resolveFromProjects
  | None => resolveFromProjects
  end.

(** Modelled from the spec: the post-authentication resolver, a state machine
    that starts by querying the anonymous-work store (section 4.3); the source
    of the hook is missing. *)
Definition handlePostSignIn : M unit :=
  do! anonWork := invoke CallGetAnonWorkData (getAnonWorkData C) in
  resolveWith anonWork.

Definition authAction (kind : AuthKind) : string -> string -> call AuthResult :=
  match kind with
  | SignIn => signInAction C
  | SignUp => signUpAction C
  end.

(** Modelled from the spec: the body of one sign-in or sign-up attempt; the
    resolver is "invoked only after an authentication attempt reports success"
    (section 4.3); the source of the hook is missing. *)
Definition attempt (kind : AuthKind) (email password : string) : M AuthResult :=
  do! result := invoke (CallAuth kind email password)
                       (authAction kind email password) in
  if success result then
    do! _ := handlePostSignIn in
    ret result
  else ret result.

(** Modelled from the spec: the in-flight flag "is set before the attempt
    begins and cleared in a guaranteed-cleanup path regardless of success or
    failure" (section 5); the source of the hook is missing. *)
Definition authenticate (kind : AuthKind) (email password : string)
  : M AuthResult :=
  do! _ := setIsLoading true in
  try_finally (attempt kind email password) (setIsLoading false).

(** Modelled from the spec: the two entry points of the hook, which differ in
    the authentication action only (section 6); the source of the hook is
    missing. *)
Definition signIn : string -> string -> M AuthResult := authenticate SignIn.

(** Modelled from the spec: see [signIn]; the source of the hook is missing. *)
Definition signUp : string -> string -> M AuthResult := authenticate SignUp.

(** The same collaborators with another anonymous-work store. *)
Definition with_anon_work (store : call (option AnonymousWork)) : Collaborators :=
  mkCollaborators (signInAction C) (signUpAction C) store (clearAnonWork C)
    (getProjects C) (createProject C) (navigateTo C)
    (localeTimeString C) (randomInteger C).

(** The state in which the hook is mounted. *)
Definition initial (w : World) : HookState := mkHookState w false [].







End Resolver.

Arguments AnonymousWork : clear implicits.
Arguments ProjectSpec : clear implicits.
Arguments Collaborators : clear implicits.
Arguments Invocation : clear implicits.
Arguments HookState : clear implicits.

(** Collaborators in the style of the test suite's mocks: each answers with a
    fixed outcome and leaves the world alone. *)
Definition mock (auth : completion AuthResult)
    (anonWork : completion (option (AnonymousWork string string)))
    (projects : completion (list Project))
    (created : completion Project)
  : Collaborators unit string string :=
  mkCollaborators
    (fun _ _ w => (auth, w)) (fun _ _ w => (auth, w))
    (fun w => (anonWork, w)) (fun w => (Normal tt, w))
    (fun w => (projects, w)) (fun _ w => (created, w))
    (fun _ w => (Normal tt, w))
    (fun w => ("10:15:30 AM", w)) (fun w => (4242%Z, w)).

(** The answers the mocks are loaded with. *)
Definition succeeded : AuthResult := mkAuthResult true None.

Definition failed : AuthResult := mkAuthResult false (Some "Invalid credentials").

Definition project_1 : Project := mkProject "project-1" 1735776000000.

Definition project_2 : Project := mkProject "project-2" 1735689600000.

Definition user_message : list string := ["Create a button"].

Definition anon_files : gmap string string := {[ "/App.jsx" := "code" ]}.

End Auth.

(** * Part II: lemmas and theorems *)

(** ** The classifier on the inputs of its test suite *)

Example extract_nested :
  extractFileName (VString "/src/components/Button.tsx") = Normal "Button.tsx".
Proof. reflexivity. Qed.

Example extract_no_leading_slash :
  extractFileName (VString "components/Card.tsx") = Normal "Card.tsx".
Proof. reflexivity. Qed.

Example extract_trailing_slashes :
  extractFileName (VString "//a//b///") = Normal "b".
Proof. reflexivity. Qed.

Example extract_number_throws :
  throws (extractFileName (VNumber (S754_finite false 5 0))).
Proof. eexists. reflexivity. Qed.

Example parse_create :
  parseToolInvocation "str_replace_editor"
    (js_object [("command", VString "create"); ("path", VString "/App.jsx")])
  = Normal (mkToolMessage "Creating" "App.jsx" (VString "/App.jsx") FilePlus
              "text-green-600" "bg-green-50" "border-green-200" None).
Proof. vm_compute. reflexivity. Qed.

Example parse_rename :
  parseToolInvocation "file_manager"
    (js_object [("command", VString "rename"); ("path", VString "/a.tsx");
          ("new_path", VString "/b.tsx")])
  = Normal (mkToolMessage "Renaming" "a.tsx" (VString "/a.tsx") FileSymlink
              "text-purple-600" "bg-purple-50" "border-purple-200"
              (Some "to b.tsx")).
Proof. vm_compute. reflexivity. Qed.

(** ** [split] and [join] *)

Section SplitFacts.

Lemma string_app_cons (c : ascii) (s t : string) :
  String c s +:+ t = String c (s +:+ t).
Proof. reflexivity. Qed.

Lemma string_app_nil_r (s : string) : s +:+ "" = s.
Proof.
  induction s as [|c s IH]; [done |].
  by rewrite string_app_cons, IH.
Qed.

Lemma string_app_assoc (a b c : string) : (a +:+ b) +:+ c = a +:+ b +:+ c.
Proof.
  induction a as [|x a IH]; [done |].
  by rewrite !string_app_cons, IH.
Qed.

Lemma split_nonempty (s : string) : split slash s <> [].
Proof.
  induction s as [|c s IH]; cbn; [done |].
  destruct (Ascii.eqb c slash); [done |].
  by destruct (split slash s).
Qed.

Lemma split_cons_other (c : ascii) (s : string) :
  Ascii.eqb c slash = false ->
  exists seg segs, split slash s = seg :: segs /\
                   split slash (String c s) = String c seg :: segs.
Proof.
  intros Hc. cbn. rewrite Hc.
  destruct (split slash s) as [|seg segs] eqn:E.
  - by apply split_nonempty in E.
  - by exists seg, segs.
Qed.

Lemma join_cons (x : string) (l : list string) :
  l <> [] -> join (x :: l) = x +:+ "/" +:+ join l.
Proof. by destruct l. Qed.

(** [split] is a right inverse of [join]: no character is lost. *)
Lemma join_split (s : string) : join (split slash s) = s.
Proof.
  induction s as [|c s IH]; [done |].
  destruct (Ascii.eqb c slash) eqn:Hc.
  - cbn [split]. rewrite Hc, join_cons by apply split_nonempty.
    rewrite IH. apply Ascii.eqb_eq in Hc. by subst c.
  - destruct (split_cons_other c s Hc) as (seg & segs & E1 & E2).
    rewrite E2. rewrite E1 in IH. subst s.
    destruct segs as [|seg' segs]; [done |]. rewrite join_cons by done. reflexivity.
Qed.

Lemma split_no_slash (s : string) : Forall (fun seg => no_slash seg = true) (split slash s).
Proof.
  induction s as [|c s IH]; [by repeat constructor |].
  destruct (Ascii.eqb c slash) eqn:Hc.
  - cbn [split]. rewrite Hc. by constructor.
  - destruct (split_cons_other c s Hc) as (seg & segs & E1 & E2).
    rewrite E2. rewrite E1 in IH. inversion IH; subst.
    constructor; [| done]. cbn. by rewrite Hc.
Qed.

End SplitFacts.

Section LastSegment.

Lemma is_empty_spec (s : string) : is_empty s = true <-> s = "".
Proof. by destruct s. Qed.

(** Joining empty segments gives separators only. *)
Lemma join_empties_all_slash (l : list string) :
  Forall (fun s => s = "") l -> all_slash (join l) = true.
Proof.
  induction 1 as [|x l -> _ IH]; [done |].
  destruct l as [|y l]; [done |].
  by rewrite join_cons.
Qed.

(** A list of parts either has only empty parts, or splits around its last
    non-empty part. *)
Lemma last_nonempty_part (l : list string) :
  Forall (fun s => s = "") l \/
  exists l1 seg l2,
    l = l1 ++ seg :: l2 /\ seg <> "" /\ Forall (fun s => s = "") l2.
Proof.
  induction l as [|x l IH]; [by left |].
  destruct IH as [Hall | (l1 & seg & l2 & -> & Hseg & Hl2)].
  - destruct x as [|c x].
    + left. by constructor.
    + right. by exists [], (String c x), l.
  - right. by exists (x :: l1), seg, l2.
Qed.

Lemma filter_Boolean_empties (l : list string) :
  Forall (fun s => s = "") l -> filter_Boolean l = [].
Proof. induction 1 as [|x l -> _ IH]; [done | exact IH]. Qed.

Lemma filter_Boolean_app (l1 l2 : list string) :
  filter_Boolean (l1 ++ l2) = filter_Boolean l1 ++ filter_Boolean l2.
Proof. apply List.filter_app. Qed.

Lemma filter_Boolean_last (l1 l2 : list string) (seg : string) :
  seg <> "" -> Forall (fun s => s = "") l2 ->
  filter_Boolean (l1 ++ seg :: l2) = filter_Boolean l1 ++ [seg].
Proof.
  intros Hseg Hl2. rewrite filter_Boolean_app. f_equal.
  destruct seg as [|c seg]; [done |].
  change (filter_Boolean (String c seg :: l2))
    with (String c seg :: filter_Boolean l2).
  by rewrite filter_Boolean_empties.
Qed.

Lemma join_app (l1 l2 : list string) :
  l1 <> [] -> l2 <> [] -> join (l1 ++ l2) = join l1 +:+ "/" +:+ join l2.
Proof.
  induction l1 as [|x l1 IH]; [done |]. intros _ Hl2.
  destruct l1 as [|y l1].
  - change ([x] ++ l2) with (x :: l2). by rewrite join_cons.
  - change ((x :: y :: l1) ++ l2) with (x :: (y :: l1) ++ l2).
    rewrite (join_cons x ((y :: l1) ++ l2)) by done.
    rewrite IH by done. rewrite (join_cons x (y :: l1)) by done.
    by rewrite !string_app_assoc.
Qed.

(** The text after the last non-empty part consists of separators. *)
Lemma join_seg_empties (seg : string) (l2 : list string) :
  Forall (fun s => s = "") l2 ->
  exists suf, join (seg :: l2) = seg +:+ suf /\ all_slash suf = true.
Proof.
  intros Hl2. destruct l2 as [|y l2].
  - exists "". by rewrite string_app_nil_r.
  - exists ("/" +:+ join (y :: l2)). split; [by rewrite join_cons |].
    by apply (join_empties_all_slash (y :: l2)) in Hl2.
Qed.

Lemma all_slash_app (a b : string) :
  all_slash (a +:+ b) = all_slash a && all_slash b.
Proof.
  induction a as [|c a IH]; [done |].
  rewrite string_app_cons. cbn. by rewrite IH, andb_assoc.
Qed.

Lemma filter_Boolean_nil (l : list string) :
  filter_Boolean l = [] -> Forall (fun s => s = "") l.
Proof.
  induction l as [|x l IH]; [by constructor |].
  destruct x as [|c x]; [| done]. intros Hl. constructor; [done | by apply IH].
Qed.

Lemma no_slash_nonempty_not_all_slash (s : string) :
  s <> "" -> no_slash s = true -> all_slash s = false.
Proof.
  destruct s as [|c s]; [done |]. cbn. intros _.
  by destruct (Ascii.eqb c slash).
Qed.

End LastSegment.

Section ExtractFileName.

(** On a string the function takes no failing step: both guards and the
    general path agree with "filter the parts, take the last". *)
Lemma extractFileName_string (p : string) :
  extractFileName (VString p) =
  Normal (let parts := filter_Boolean (split slash p) in
          if 0 <? length parts then List.last parts "/" else "/").
Proof.
  unfold extractFileName.
  destruct (negb (truthy (VString p)) || strict_eq_string (VString p) "/")
    eqn:Hguard; [| reflexivity].
  apply orb_true_iff in Hguard as [Hempty | Hroot].
  - apply is_empty_spec in Hempty. by subst p.
  - apply String.eqb_eq in Hroot. by subst p.
Qed.

Lemma last_part_of_split (p : string) (l1 l2 : list string) (seg : string) :
  split slash p = l1 ++ seg :: l2 ->
  seg <> "" -> Forall (fun s => s = "") l2 ->
  extractFileName (VString p) = Normal seg.
Proof.
  intros Hsplit Hseg Hl2.
  rewrite extractFileName_string, Hsplit. cbv zeta.
  rewrite filter_Boolean_last by done.
  rewrite List.last_last, List.length_app. cbn [length].
  by destruct (0 <? length (filter_Boolean l1) + 1) eqn:E;
    [| apply Nat.ltb_ge in E; lia].
Qed.

Lemma split_app_sep (a b : string) :
  split slash (a +:+ String slash b) = split slash a ++ split slash b.
Proof.
  induction a as [|c a IH]; [done |].
  rewrite string_app_cons.
  destruct (Ascii.eqb c slash) eqn:Hc.
  - cbn [split]. by rewrite Hc, IH.
  - destruct (split_cons_other c a Hc) as (seg & segs & E1 & E2).
    rewrite E2. cbn [split]. rewrite Hc, IH, E1. reflexivity.
Qed.

Lemma split_no_slash_id (s : string) :
  no_slash s = true -> split slash s = [s].
Proof.
  induction s as [|c s IH]; [done |]. cbn [no_slash split].
  intros [Hc Hs]%andb_true_iff. apply negb_true_iff in Hc.
  by rewrite Hc, IH.
Qed.

Lemma split_all_slash (s : string) :
  all_slash s = true -> Forall (fun seg => seg = "") (split slash s).
Proof.
  induction s as [|c s IH]; [by repeat constructor |]. cbn [all_slash split].
  intros [Hc Hs]%andb_true_iff. rewrite Hc. constructor; auto.
Qed.

Lemma split_seg_suffix (seg suf : string) :
  no_slash seg = true -> all_slash suf = true ->
  exists l2, split slash (seg +:+ suf) = seg :: l2 /\
             Forall (fun s => s = "") l2.
Proof.
  intros Hseg Hsuf. destruct suf as [|c suf].
  - exists []. by rewrite string_app_nil_r, split_no_slash_id.
  - cbn [all_slash] in Hsuf. apply andb_true_iff in Hsuf as [Hc Hsuf].
    apply Ascii.eqb_eq in Hc. subst c.
    exists (split slash suf).
    by rewrite split_app_sep, split_no_slash_id; [split; [| apply split_all_slash] |].
Qed.

(** Completeness: whatever satisfies the description of the last segment is
    what the function returns, so the description determines the result. *)
Lemma is_last_segment_extract (p seg : string) :
  is_last_segment p seg -> extractFileName (VString p) = Normal seg.
Proof.
  intros (Hne & Hno & pre & suf & -> & Hsuf & Hpre).
  destruct (split_seg_suffix seg suf Hno Hsuf) as (l2 & Hsplit & Hl2).
  destruct Hpre as [-> | [pre' ->]].
  - by apply (last_part_of_split _ [] l2).
  - apply (last_part_of_split _ (split slash pre') l2); [| done..].
    change (pre' +:+ "/") with (pre' +:+ String slash "").
    rewrite string_app_assoc.
    change (String slash "" +:+ seg +:+ suf) with (String slash (seg +:+ suf)).
    by rewrite split_app_sep, Hsplit.
Qed.

Lemma is_last_segment_unique (p s1 s2 : string) :
  is_last_segment p s1 -> is_last_segment p s2 -> s1 = s2.
Proof.
  intros H1%is_last_segment_extract H2%is_last_segment_extract. congruence.
Qed.

Lemma is_last_segment_not_all_slash (p seg : string) :
  is_last_segment p seg -> all_slash p = false.
Proof.
  intros (Hne & Hno & pre & suf & -> & _ & _).
  rewrite !all_slash_app, (no_slash_nonempty_not_all_slash seg) by done.
  by rewrite andb_false_r.
Qed.

(** A string has no non-empty part exactly when it holds separators only. *)
Lemma all_slash_no_part (p : string) :
  all_slash p = true <-> filter_Boolean (split slash p) = [].
Proof.
  split.
  - intros Hp. by apply filter_Boolean_empties, split_all_slash.
  - intros Hparts%filter_Boolean_nil.
    rewrite <- (join_split p). by apply join_empties_all_slash.
Qed.

(** Soundness: the parts of [p] either are all empty, or the function
    returns a string that satisfies the description. *)
Lemma extract_sound (p : string) :
  (all_slash p = true /\ extractFileName (VString p) = Normal "/") \/
  (exists seg, extractFileName (VString p) = Normal seg /\ is_last_segment p seg).
Proof.
  pose proof (join_split p) as Hjoin.
  pose proof (split_no_slash p) as Hno.
  destruct (last_nonempty_part (split slash p))
    as [Hall | (l1 & seg & l2 & Hsplit & Hseg & Hl2)].
  - left. split.
    + rewrite <- Hjoin. by apply join_empties_all_slash.
    + rewrite extractFileName_string, (filter_Boolean_empties _ Hall). done.
  - right. exists seg. split; [by apply (last_part_of_split p l1 l2) |].
    rewrite Hsplit in Hno, Hjoin.
    apply Forall_app in Hno as [_ Hno]. apply Forall_cons in Hno as [Hnoseg _].
    destruct (join_seg_empties seg l2 Hl2) as (suf & Hsuf & Hall).
    split; [done |]. split; [done |].
    destruct l1 as [|x l1].
    + exists "", suf. rewrite <- Hjoin. cbn [app]. by rewrite Hsuf; auto.
    + exists (join (x :: l1) +:+ "/"), suf. split; [| split; [done | eauto]].
      rewrite <- Hjoin, join_app, Hsuf by done.
      by rewrite string_app_assoc.
Qed.

End ExtractFileName.

(** C1. For every string [p], [extractFileName] returns normally (it does not
    throw); the result is the root marker ["/"] when [p] has no non-empty
    segment (only separators), and otherwise the last non-empty [/]-delimited
    segment of [p].  The empty string and ["/"] give the root marker. *)
Theorem extractFileName_spec :
  (forall p : string,
     exists r,
       extractFileName (VString p) = Normal r /\
       (if all_slash p then r = "/" else is_last_segment p r)) /\
  extractFileName (VString "") = Normal "/" /\
  extractFileName (VString "/") = Normal "/".
Proof.
  split; [| done]. intros p.
  destruct (extract_sound p) as [[Hall Hr] | (seg & Hr & Hseg)].
  - exists "/". by rewrite Hall.
  - exists seg. by rewrite (is_last_segment_not_all_slash p seg Hseg).
Qed.

(** ** The classifier on well-shaped and ill-shaped arguments *)

Section Classifier.

Lemma or_else_string (v : value) :
  string_or_falsy v = true ->
  or_else v (VString "") = VString (as_string v).
Proof.
  unfold or_else.
  destruct v as [| |b|x|s|l|m]; cbn; try done.
  - by destruct b.
  - by destruct x.
  - by destruct s.
Qed.

Lemma extractFileName_returns (v : value) :
  string_or_falsy v = true ->
  exists r, extractFileName (or_else v (VString "")) = Normal r /\
            extractFileName (VString (as_string v)) = Normal r.
Proof.
  intros Hv. rewrite (or_else_string v Hv), extractFileName_string.
  by eexists.
Qed.

(** A truthy value that is not a string has no [split] method. *)
Lemma extractFileName_throws (v : value) :
  string_or_falsy v = false ->
  extractFileName (or_else v (VString "")) =
  Throw (TypeError "path.split is not a function").
Proof.
  unfold or_else.
  destruct v as [| |b|x|s|l|m]; cbn; try done.
  - by destruct b.
  - by destruct x.
Qed.

Lemma get_object (a : gmap string value) (k : string) :
  get (or_else (VObject a) (VObject ∅)) k = Normal (prop a k).
Proof. reflexivity. Qed.

Lemma prop_empty (k : string) : prop ∅ k = VUndefined.
Proof. unfold prop. by rewrite lookup_empty. Qed.

(** The editor classifier, once the properties are read. *)
Lemma parseStrReplaceEditor_object (a : gmap string value) :
  parseStrReplaceEditor (VObject a) =
  let! fileName := extractFileName (or_else (prop a "path") (VString "")) in
  let filePath := or_else (prop a "path") (VString "") in
  let command := prop a "command" in
  if strict_eq_string command "create" then
    Normal (mkToolMessage "Creating" fileName filePath FilePlus
              "text-green-600" "bg-green-50" "border-green-200" None)
  else if strict_eq_string command "str_replace"
          || strict_eq_string command "insert" then
    Normal (mkToolMessage "Editing" fileName filePath FileEdit
              "text-amber-600" "bg-amber-50" "border-amber-200" None)
  else if strict_eq_string command "view" then
    Normal (mkToolMessage "Viewing" fileName filePath Eye
              "text-blue-600" "bg-blue-50" "border-blue-200" None)
  else if strict_eq_string command "undo_edit" then
    Normal (mkToolMessage "Undoing changes to" fileName filePath Undo
              "text-neutral-600" "bg-neutral-50" "border-neutral-200" None)
  else
    Normal (mkToolMessage "Processing" fileName filePath FileEdit
              "text-neutral-600" "bg-neutral-50" "border-neutral-200" None).
Proof. reflexivity. Qed.

(** No branch of the editor classifier sets [details]. *)
Lemma parseStrReplaceEditor_no_details (args : value) (d : ToolMessage) :
  parseStrReplaceEditor args = Normal d -> details d = None.
Proof.
  unfold parseStrReplaceEditor.
  destruct (get _ "command") as [command|]; [| done].
  destruct (get _ "path") as [path|]; [| done]. cbn [bind].
  destruct (extractFileName _) as [fn|]; [| done]. cbn [bind].
  repeat match goal with
         | |- context [if ?b then _ else _] => destruct b
         end; intros [= <-]; reflexivity.
Qed.

End Classifier.

(** C2, counterexample.  For a tool name that is not recognised the fallback
    descriptor carries the tool name, not the root marker. *)
Lemma falls_back_to_root_unknown_tool :
  ~ falls_back_to_root "unknown_tool" VNull /\
  ~ falls_back_to_root "unknown_tool" (VObject ∅).
Proof. split; intros (d & [= <-] & Hname); discriminate Hname. Qed.

(** C2, amended.  For every tool name, with [args] equal to [null] or to the
    empty record, the classifier returns normally; [filePath] is empty and
    [fileName] is the root marker for the file-editor and the file-manager
    tool, and the tool name itself for any other tool. *)
Theorem parseToolInvocation_missing_args (toolName : string) :
  let expected := if is_file_tool toolName then "/" else toolName in
  (exists d, parseToolInvocation toolName VNull = Normal d /\
             fileName d = expected /\ filePath d = VString "") /\
  (exists d, parseToolInvocation toolName (VObject ∅) = Normal d /\
             fileName d = expected /\ filePath d = VString "").
Proof.
  unfold is_file_tool, parseToolInvocation.
  destruct (String.eqb toolName "str_replace_editor");
    [| destruct (String.eqb toolName "file_manager")];
    split; eexists; (split; [reflexivity |]); by vm_compute.
Qed.

(** C8. Any tool name other than the two recognised ones yields, whatever the
    arguments are, the generic descriptor: action ["Running"], the tool name
    as [fileName], an empty [filePath]. *)
Theorem parseToolInvocation_unknown_tool (toolName : string) (args : value) :
  toolName <> "str_replace_editor" -> toolName <> "file_manager" ->
  parseToolInvocation toolName args =
  Normal (mkToolMessage "Running" toolName (VString "") FileEdit
            "text-neutral-600" "bg-neutral-50" "border-neutral-200" None).
Proof.
  intros He%String.eqb_neq Hm%String.eqb_neq.
  unfold parseToolInvocation. by rewrite He, Hm.
Qed.

Lemma parseToolInvocation_unknown_tool_witness :
  parseToolInvocation "unknown_tool" (VObject ∅) =
  Normal (mkToolMessage "Running" "unknown_tool" (VString "") FileEdit
            "text-neutral-600" "bg-neutral-50" "border-neutral-200" None).
Proof. apply parseToolInvocation_unknown_tool; discriminate. Defined.

(** The two editing commands agree on every pair of records with the same
    [path], whatever that property holds; with a string or an absent [path]
    the common result is the editing descriptor. *)
Lemma editing_commands_agree (a1 a2 : gmap string value) :
  prop a1 "command" = VString "str_replace" ->
  prop a2 "command" = VString "insert" ->
  prop a1 "path" = prop a2 "path" ->
  parseStrReplaceEditor (VObject a1) = parseStrReplaceEditor (VObject a2) /\
  (string_or_falsy (prop a1 "path") = true ->
   exists fn,
     extractFileName (VString (as_string (prop a1 "path"))) = Normal fn /\
     parseStrReplaceEditor (VObject a1) =
     Normal (mkToolMessage "Editing" fn (VString (as_string (prop a1 "path")))
               FileEdit "text-amber-600" "bg-amber-50" "border-amber-200" None)).
Proof.
  intros Hc1 Hc2 Hp.
  rewrite !parseStrReplaceEditor_object, Hc1, Hc2, <- Hp.
  split; [reflexivity |]. intros Hv.
  destruct (extractFileName_returns _ Hv) as (fn & Hfn & Hfn').
  exists fn. split; [done |].
  by rewrite Hfn, (or_else_string _ Hv).
Qed.

(** The recognised properties of a record of the data model. *)
Lemma prop_fields_command (a : ToolInvocationArgs) :
  prop (fields a) "command" = of_option (arg_command a).
Proof.
  unfold prop, fields, set_field.
  destruct (arg_command a); by simplify_map_eq.
Qed.

Lemma prop_fields_path (a : ToolInvocationArgs) :
  prop (fields a) "path" = of_option (arg_path a).
Proof.
  unfold prop, fields, set_field.
  destruct (arg_command a), (arg_path a); by simplify_map_eq.
Qed.

Lemma prop_fields_new_path (a : ToolInvocationArgs) :
  prop (fields a) "new_path" = of_option (arg_new_path a).
Proof.
  unfold prop, fields, set_field.
  destruct (arg_command a), (arg_path a), (arg_new_path a); by simplify_map_eq.
Qed.

Lemma of_option_string_or_falsy (v : option string) :
  string_or_falsy (of_option v) = true.
Proof. by destruct v. Qed.

Lemma as_string_of_option (v : option string) :
  as_string (of_option v) = default "" v.
Proof. by destruct v. Qed.

(** C7. Two argument records with the same [path], one with command
    ["str_replace"] and one with ["insert"], are classified by the file-editor
    tool as one and the same descriptor: action ["Editing"], the [FileEdit]
    icon and the amber triad, with the file name extracted from [path]. *)
Theorem str_replace_insert_same (a1 a2 : ToolInvocationArgs) :
  arg_command a1 = Some "str_replace" ->
  arg_command a2 = Some "insert" ->
  arg_path a1 = arg_path a2 ->
  exists fn,
    extractFileName (VString (default "" (arg_path a1))) = Normal fn /\
    parseToolInvocation "str_replace_editor" (to_value a1) =
    Normal (mkToolMessage "Editing" fn (VString (default "" (arg_path a1)))
              FileEdit "text-amber-600" "bg-amber-50" "border-amber-200" None) /\
    parseToolInvocation "str_replace_editor" (to_value a2) =
    parseToolInvocation "str_replace_editor" (to_value a1).
Proof.
  intros Hc1 Hc2 Hp.
  change (parseToolInvocation "str_replace_editor" (to_value a1))
    with (parseStrReplaceEditor (VObject (fields a1))).
  change (parseToolInvocation "str_replace_editor" (to_value a2))
    with (parseStrReplaceEditor (VObject (fields a2))).
  destruct (editing_commands_agree (fields a1) (fields a2)) as [Hsame Hedit].
  { by rewrite prop_fields_command, Hc1. }
  { by rewrite prop_fields_command, Hc2. }
  { by rewrite !prop_fields_path, Hp. }
  rewrite prop_fields_path, as_string_of_option in Hedit.
  destruct Hedit as (fn & Hfn & Hd); [apply of_option_string_or_falsy |].
  exists fn. by rewrite <- Hsame.
Qed.

Lemma str_replace_insert_same_witness :
  exists fn,
    extractFileName (VString "/utils/index.ts") = Normal fn /\
    parseToolInvocation "str_replace_editor"
      (to_value (mkArgs (Some "str_replace") (Some "/utils/index.ts") None ∅)) =
    Normal (mkToolMessage "Editing" fn (VString "/utils/index.ts")
              FileEdit "text-amber-600" "bg-amber-50" "border-amber-200" None) /\
    parseToolInvocation "str_replace_editor"
      (to_value (mkArgs (Some "insert") (Some "/utils/index.ts") None
                   {[ "insert_line" := VNumber (S754_finite false 5 0) ]})) =
    parseToolInvocation "str_replace_editor"
      (to_value (mkArgs (Some "str_replace") (Some "/utils/index.ts") None ∅)).
Proof.
  apply (str_replace_insert_same
           (mkArgs (Some "str_replace") (Some "/utils/index.ts") None ∅)
           (mkArgs (Some "insert") (Some "/utils/index.ts") None
              {[ "insert_line" := VNumber (S754_finite false 5 0) ]}));
    reflexivity.
Defined.

Section FileManager.

Lemma strict_eq_string_true (v : value) (s : string) :
  strict_eq_string v s = true <-> v = VString s.
Proof.
  destruct v; cbn; try (split; [discriminate | by intros [=]]).
  rewrite String.eqb_eq. split; [by intros -> | by intros [=]].
Qed.

Lemma parseFileManager_object (a : gmap string value) :
  parseFileManager (VObject a) =
  let! fileName := extractFileName (or_else (prop a "path") (VString "")) in
  let filePath := or_else (prop a "path") (VString "") in
  let command := prop a "command" in
  if strict_eq_string command "delete" then
    Normal (mkToolMessage "Deleting" fileName filePath FileX
              "text-red-600" "bg-red-50" "border-red-200" None)
  else if strict_eq_string command "rename" then
    let! newFileName :=
      extractFileName (or_else (prop a "new_path") (VString "")) in
    Normal (mkToolMessage "Renaming" fileName filePath FileSymlink
              "text-purple-600" "bg-purple-50" "border-purple-200"
              (Some ("to " +:+ newFileName)))
  else
    Normal (mkToolMessage "Processing" fileName filePath FileSymlink
              "text-neutral-600" "bg-neutral-50" "border-neutral-200" None).
Proof. reflexivity. Qed.

(** [details] is set by the file manager exactly in its rename branch. *)
Lemma parseFileManager_details (args : value) (d : ToolMessage) :
  parseFileManager args = Normal d ->
  (is_Some (details d) <-> read_command args = Normal (VString "rename")).
Proof.
  unfold parseFileManager, read_command.
  destruct (get _ "command") as [command|]; [| done].
  destruct (get _ "path") as [path|]; [| done].
  destruct (get _ "new_path") as [new_path|]; [| done]. cbn [bind].
  destruct (extractFileName (or_else path _)) as [fn|]; [| done]. cbn [bind].
  destruct (strict_eq_string command "delete") eqn:Hdel.
  { apply strict_eq_string_true in Hdel as ->. intros [= <-]. cbn.
    split; [by intros [? [=]] | by intros [=]]. }
  destruct (strict_eq_string command "rename") eqn:Hren.
  { apply strict_eq_string_true in Hren as ->.
    destruct (extractFileName (or_else new_path _)) as [nfn|]; [| done].
    intros [= <-]. cbn. split; [done | by eexists]. }
  intros [= <-]. cbn. split; [by intros [? [=]] |].
  intros [= ->]. discriminate Hren.
Qed.

End FileManager.

(** The rename branch on a record whose [path] and [new_path] are strings or
    absent. *)
Lemma rename_descriptor (a : gmap string value) :
  prop a "command" = VString "rename" ->
  string_or_falsy (prop a "path") = true ->
  string_or_falsy (prop a "new_path") = true ->
  exists fn nfn,
    extractFileName (VString (as_string (prop a "path"))) = Normal fn /\
    extractFileName (VString (as_string (prop a "new_path"))) = Normal nfn /\
    parseFileManager (VObject a) =
    Normal (mkToolMessage "Renaming" fn (VString (as_string (prop a "path")))
              FileSymlink "text-purple-600" "bg-purple-50" "border-purple-200"
              (Some ("to " +:+ nfn))).
Proof.
  intros Hcmd Hp Hnp.
  destruct (extractFileName_returns _ Hp) as (fn & Hfn & Hfn').
  destruct (extractFileName_returns _ Hnp) as (nfn & Hnfn & Hnfn').
  exists fn, nfn. split; [done |]. split; [done |].
  rewrite parseFileManager_object, Hcmd, Hfn, Hnfn.
  by rewrite (or_else_string _ Hp).
Qed.

(** [details] is set in the rename branch of the file manager and in no other
    branch of the classifier. *)
Lemma details_only_for_rename (toolName : string) (args : value) (d : ToolMessage) :
  parseToolInvocation toolName args = Normal d ->
  (is_Some (details d) <->
   toolName = "file_manager" /\ read_command args = Normal (VString "rename")).
Proof.
  unfold parseToolInvocation.
  destruct (String.eqb toolName "str_replace_editor") eqn:He.
  { apply String.eqb_eq in He as ->.
    intros ->%parseStrReplaceEditor_no_details.
    split; [by intros [? [=]] | by intros [[=] _]]. }
  destruct (String.eqb toolName "file_manager") eqn:Hm.
  { apply String.eqb_eq in Hm as ->.
    intros Hd%parseFileManager_details. rewrite Hd.
    split; [done | by intros [_ ?]]. }
  apply String.eqb_neq in Hm. intros [= <-]. cbn.
  split; [by intros [? [=]] | by intros [? _]].
Qed.

(** C9. For every argument record with command ["rename"], the file-manager
    classifier returns the file name extracted from [path] and the details
    ["to "] followed by the file name extracted from [new_path]; for [/a.tsx]
    renamed to [/b.tsx] these are ["a.tsx"] and ["to b.tsx"].  Over all tools
    and arguments, a returned descriptor has a [details] field exactly when
    the tool is the file manager and the command is ["rename"]. *)
Theorem rename_details :
  (forall a : ToolInvocationArgs,
     arg_command a = Some "rename" ->
     exists fn nfn,
       extractFileName (VString (default "" (arg_path a))) = Normal fn /\
       extractFileName (VString (default "" (arg_new_path a))) = Normal nfn /\
       parseToolInvocation "file_manager" (to_value a) =
       Normal (mkToolMessage "Renaming" fn (VString (default "" (arg_path a)))
                 FileSymlink "text-purple-600" "bg-purple-50" "border-purple-200"
                 (Some ("to " +:+ nfn)))) /\
  (forall (toolName : string) (args : value) (d : ToolMessage),
     parseToolInvocation toolName args = Normal d ->
     (is_Some (details d) <->
      toolName = "file_manager" /\ read_command args = Normal (VString "rename"))) /\
  (exists d,
     parseToolInvocation "file_manager"
       (to_value (mkArgs (Some "rename") (Some "/a.tsx") (Some "/b.tsx") ∅))
     = Normal d /\
     fileName d = "a.tsx" /\ details d = Some "to b.tsx").
Proof.
  split; [| split].
  - intros a Hcmd.
    change (parseToolInvocation "file_manager" (to_value a))
      with (parseFileManager (VObject (fields a))).
    destruct (rename_descriptor (fields a)) as (fn & nfn & Hfn & Hnfn & Hd).
    { by rewrite prop_fields_command, Hcmd. }
    { rewrite prop_fields_path. apply of_option_string_or_falsy. }
    { rewrite prop_fields_new_path. apply of_option_string_or_falsy. }
    rewrite prop_fields_path, as_string_of_option in Hfn, Hd.
    rewrite prop_fields_new_path, as_string_of_option in Hnfn.
    by exists fn, nfn.
  - apply details_only_for_rename.
  - eexists. split; [by vm_compute | done].
Qed.

Lemma rename_details_witness :
  exists fn nfn,
    extractFileName (VString "/components/Button.tsx") = Normal fn /\
    extractFileName (VString "/components/ui/Button.tsx") = Normal nfn /\
    parseToolInvocation "file_manager"
      (to_value (mkArgs (Some "rename") (Some "/components/Button.tsx")
                   (Some "/components/ui/Button.tsx") ∅)) =
    Normal (mkToolMessage "Renaming" fn (VString "/components/Button.tsx")
              FileSymlink "text-purple-600" "bg-purple-50" "border-purple-200"
              (Some ("to " +:+ nfn))).
Proof.
  apply (proj1 rename_details
           (mkArgs (Some "rename") (Some "/components/Button.tsx")
              (Some "/components/ui/Button.tsx") ∅)).
  reflexivity.
Defined.

(** Outside the data model: a truthy [path] that is not a string makes both
    classifiers throw, since [extractFileName] calls [split] on it. *)
Lemma parseStrReplaceEditor_throws (a : gmap string value) :
  string_or_falsy (prop a "path") = false ->
  parseStrReplaceEditor (VObject a) =
  Throw (TypeError "path.split is not a function").
Proof.
  intros Hp. by rewrite parseStrReplaceEditor_object, extractFileName_throws.
Qed.

Lemma parseFileManager_throws (a : gmap string value) :
  string_or_falsy (prop a "path") = false ->
  parseFileManager (VObject a) =
  Throw (TypeError "path.split is not a function").
Proof.
  intros Hp. by rewrite parseFileManager_object, extractFileName_throws.
Qed.

(** ** ToolCallDisplay *)

Section DisplayFacts.

Import Display.

Example display_create_call :
  ToolCallDisplay
    (mkToolInvocation "call_147" "str_replace_editor"
       (js_object [("command", VString "create"); ("path", VString "/App.jsx")])
       Call VUndefined) false
  = Normal (mkHeader false "Creating App.jsx" Loader2 FilePlus
              "Creating App.jsx" None ChevronRight).
Proof. by vm_compute. Qed.

Example display_rename_result :
  ToolCallDisplay
    (mkToolInvocation "call_139" "file_manager"
       (js_object [("command", VString "rename"); ("path", VString "/old/path.tsx");
                   ("new_path", VString "/new/path.tsx")])
       Result (VString "Success")) true
  = Normal (mkHeader true "Renaming path.tsx to path.tsx" CheckCircle2
              FileSymlink "Renaming path.tsx" (Some "to path.tsx") ChevronDown).
Proof. by vm_compute. Qed.

(** A [null] result is a result: only [undefined] keeps the spinner. *)
Example display_null_result :
  ToolCallDisplay (mkToolInvocation "call_1" "other" VNull Result VNull) false
  = Normal (mkHeader false "Running other" CheckCircle2 FileEdit
              "Running other" None ChevronRight).
Proof. by vm_compute. Qed.

(** The render fails exactly when the classifier does. *)
Lemma ToolCallDisplay_renders (inv : ToolInvocation) (isExpanded : bool) :
  returns (ToolCallDisplay inv isExpanded) <->
  returns (parseToolInvocation (toolName inv) (args inv)).
Proof.
  unfold ToolCallDisplay, returns.
  destruct (parseToolInvocation _ _) as [m|e]; cbn [bind].
  - split; intros _; by eexists.
  - split; intros [? [=]].
Qed.

Lemma isCompleted_spec (inv : ToolInvocation) :
  isCompleted inv = true <-> completed_invocation inv.
Proof.
  unfold isCompleted, completed_invocation. rewrite andb_true_iff.
  split; intros [Hs Hr]; split.
  - by destruct (state inv).
  - intros E. by rewrite E in Hr.
  - by rewrite Hs.
  - by destruct (result inv).
Qed.

Lemma isCompleted_undefined (inv : ToolInvocation) :
  result inv = VUndefined -> isCompleted inv = false.
Proof. unfold isCompleted. intros ->. apply andb_false_r. Qed.

Lemma indicator_of_render (inv : ToolInvocation) (isExpanded : bool) (h : Header) :
  ToolCallDisplay inv isExpanded = Normal h ->
  indicator h = if isCompleted inv then CheckCircle2 else Loader2.
Proof.
  unfold ToolCallDisplay.
  destruct (parseToolInvocation _ _) as [m|e]; [| done].
  by intros [= <-].
Qed.

End DisplayFacts.

(** ** The most recent project *)

Section MostRecent.

Import Auth.

#[local] Instance more_recent_transitive : Transitive more_recent.
Proof. intros p q r. unfold more_recent. lia. Qed.

#[local] Instance more_recent_total : Total more_recent.
Proof. intros p q. unfold more_recent. lia. Qed.


(** The selected project is one of the listing and none is more recent. *)
Lemma most_recent_max (projects : list Project) (p : Project) :
  most_recent projects = Some p ->
  p ∈ projects /\ forall q, q ∈ projects -> (updatedAt q <= updatedAt p)%Z.
Proof.
  unfold most_recent. intros Hhead.
  pose proof (StronglySorted_merge_sort more_recent projects) as Hsorted.
  pose proof (merge_sort_Permutation more_recent projects) as Hperm.
  destruct (merge_sort more_recent projects) as [|p' sorted]; [done |].
  injection Hhead as ->.
  apply StronglySorted_inv in Hsorted as [_ Hall].
  split.
  - rewrite <- Hperm. by left.
  - intros q Hq. rewrite <- Hperm in Hq.
    apply elem_of_cons in Hq as [-> | Hq]; [done |].
    rewrite Forall_forall in Hall. by apply Hall.
Qed.

(** A non-empty listing always has a most recent project. *)
Lemma most_recent_is_Some (projects : list Project) :
  projects <> [] -> exists p, most_recent projects = Some p.
Proof.
  unfold most_recent. intros Hne.
  pose proof (merge_sort_Permutation more_recent projects) as Hperm.
  destruct (merge_sort more_recent projects) as [|p sorted]; [| by exists p].
  by apply Permutation_nil_l in Hperm.
Qed.

(** The order of the listing does not change the timestamp that is chosen. *)
Lemma most_recent_any_order (ps ps' : list Project) :
  ps ≡ₚ ps' ->
  updatedAt <$> most_recent ps = updatedAt <$> most_recent ps'.
Proof.
  intros Hperm.
  destruct ps as [|p0 ps0].
  { apply Permutation_nil_l in Hperm. by subst ps'. }
  destruct (most_recent_is_Some (p0 :: ps0)) as [p Hp]; [done |].
  destruct (most_recent_is_Some ps') as [p' Hp'].
  { intros ->. by apply Permutation_nil_r in Hperm. }
  rewrite Hp, Hp'. cbn. f_equal.
  apply most_recent_max in Hp as [Hin Hmax].
  apply most_recent_max in Hp' as [Hin' Hmax'].
  rewrite Hperm in Hin. rewrite <- Hperm in Hin'.
  specialize (Hmax _ Hin'). specialize (Hmax' _ Hin). lia.
Qed.

End MostRecent.

(** ** The hook: one sign-in or sign-up attempt *)

Section ResolverFacts.

Import Auth.

Context {World Message FileRecord : Type}.
Variable C : Collaborators World Message FileRecord.

Abbreviation HookState := (HookState World Message FileRecord).
Abbreviation Invocation := (Invocation Message FileRecord).

(** The guaranteed cleanup keeps the outcome, the world and the invocations of
    the attempt and only lowers the flag. *)
Lemma authenticate_unfold (kind : AuthKind) (email password : string) (st : HookState) :
  authenticate C kind email password st =
  let body := attempt C kind email password
                (mkHookState (world st) true (calls st)) in
  (fst body, mkHookState (world (snd body)) false (calls (snd body))).
Proof.
  unfold authenticate, hook_bind, try_finally, setIsLoading. cbn.
  by destruct (attempt _ _ _ _ _) as [outcome st'].
Qed.


Lemma attempt_auth_succeeded (kind : AuthKind) (email password : string)
    (st : HookState) (r : AuthResult) (w : World) :
  authAction C kind email password (world st) = (Normal r, w) ->
  success r = true ->
  attempt C kind email password st =
  match handlePostSignIn C
          (mkHookState w (isLoading st) (calls st ++ [CallAuth kind email password]))
  with
  | (Normal _, st') => (Normal r, st')
  | (Throw e, st') => (Throw e, st')
  end.
Proof.
  intros Hauth Hok. unfold attempt, hook_bind, invoke at 1.
  rewrite Hauth, Hok. by destruct (handlePostSignIn _ _) as [[?|?] ?].
Qed.






(** C5. An anonymous-work record with an empty message sequence is treated as
    an absent one: with either answer of the store the attempt has the same
    outcome and final state, and the resolver continues with the project
    listing right after the read. *)
Theorem empty_messages_as_absent (kind : AuthKind) (email password : string)
    (st : HookState) (fileSystemData : gmap string FileRecord)
    (after : World -> World) :
  let Cempty :=
    with_anon_work C
      (fun w => (Normal (Some (mkAnonymousWork [] fileSystemData)), after w)) in
  let Cnull := with_anon_work C (fun w => (Normal None, after w)) in
  let listing :=
    resolveFromProjects C
      (mkHookState (after (world st)) (isLoading st)
                   (calls st ++ [CallGetAnonWorkData])) in
  authenticate Cempty kind email password st =
  authenticate Cnull kind email password st /\
  handlePostSignIn Cempty st = listing /\
  handlePostSignIn Cnull st = listing.
Proof. cbv zeta. split; [| split]; reflexivity. Qed.


End ResolverFacts.

(** ** The hook on the mocks of its test suite *)

Section HookExamples.

Import Auth.

Example sign_in_fails :
  signIn (mock (Normal failed) (Normal None) (Normal []) (Normal project_1))
         "test@example.com" "wrongpassword" (initial tt)
  = (Normal failed,
     mkHookState tt false [CallAuth SignIn "test@example.com" "wrongpassword"]).
Proof. reflexivity. Qed.

Example sign_in_throws :
  signIn (mock (Throw (Error "Network error")) (Normal None) (Normal [])
               (Normal project_1))
         "test@example.com" "password123" (initial tt)
  = (Throw (Error "Network error"),
     mkHookState tt false [CallAuth SignIn "test@example.com" "password123"]).
Proof. reflexivity. Qed.

Example create_project_throws :
  signIn (mock (Normal succeeded) (Normal None) (Normal [])
               (Throw (Error "Database error")))
         "test@example.com" "password123" (initial tt)
  = (Throw (Error "Database error"),
     mkHookState tt false
       [CallAuth SignIn "test@example.com" "password123"; CallGetAnonWorkData;
        CallGetProjects;
        CallCreateProject (mkProjectSpec "New Design #4242" [] ∅)]).
Proof. by vm_compute. Qed.

Example most_recent_of_unsorted_listing :
  signIn (mock (Normal succeeded) (Normal None)
               (Normal [project_2; project_1]) (Normal project_1))
         "test@example.com" "password123" (initial tt)
  = (Normal succeeded,
     mkHookState tt false
       [CallAuth SignIn "test@example.com" "password123"; CallGetAnonWorkData;
        CallGetProjects; CallNavigateTo "/project-1"]).
Proof. by vm_compute. Qed.

Example anonymous_work_becomes_project :
  signUp (mock (Normal succeeded)
               (Normal (Some (mkAnonymousWork user_message anon_files)))
               (Normal [project_1]) (Normal (mkProject "signup-project" 0)))
         "new@example.com" "password123" (initial tt)
  = (Normal succeeded,
     mkHookState tt false
       [CallAuth SignUp "new@example.com" "password123"; CallGetAnonWorkData;
        CallCreateProject
          (mkProjectSpec "Design from 10:15:30 AM" user_message anon_files);
        CallClearAnonWork; CallNavigateTo "/signup-project"]).
Proof. by vm_compute. Qed.

End HookExamples.




(** * Part III: the render and further properties of the embedded code *)

(** ** [extractFileName] as a function on paths *)

Section ExtractFileNameAlgebra.

Lemma last_app_nonempty (l1 l2 : list string) (d : string) :
  l2 <> [] -> List.last (l1 ++ l2) d = List.last l2 d.
Proof.
  intros Hl2. induction l1 as [|x l1 IH]; [done |].
  cbn [app List.last]. rewrite IH.
  destruct (l1 ++ l2) eqn:E; [| done].
  apply app_eq_nil in E as [_ ->]. done.
Qed.

Lemma extractFileName_app_sep (a b : string) :
  extractFileName (VString (a +:+ String slash b)) =
  if all_slash b then extractFileName (VString a)
  else extractFileName (VString b).
Proof.
  rewrite !extractFileName_string, split_app_sep, filter_Boolean_app. cbv zeta.
  destruct (all_slash b) eqn:Hb.
  - apply all_slash_no_part in Hb. by rewrite Hb, app_nil_r.
  - assert (filter_Boolean (split slash b) <> []) as Hparts.
    { intros Hnil%all_slash_no_part. congruence. }
    rewrite last_app_nonempty by done. rewrite List.length_app.
    destruct (filter_Boolean (split slash b)) as [|x l]; [done |].
    cbn [length]. f_equal.
    by destruct (0 <? length (filter_Boolean (split slash a)) + S (length l)) eqn:E;
      [| apply Nat.ltb_ge in E; lia].
Qed.

(** What [extractFileName] returns on a string: never the empty string, and
    either the root marker or a string without separator. *)
Lemma extract_shape (p r : string) :
  extractFileName (VString p) = Normal r ->
  r <> "" /\ (r = "/" \/ no_slash r = true).
Proof.
  intros Hr. destruct (extract_sound p) as [[_ Hroot] | (seg & Hseg & Hlast)].
  - rewrite Hroot in Hr. injection Hr as <-. split; [done | by left].
  - rewrite Hseg in Hr. injection Hr as <-.
    destruct Hlast as (Hne & Hno & _). split; [done | by right].
Qed.

Lemma extract_fixed_point (r : string) :
  r <> "" -> r = "/" \/ no_slash r = true ->
  extractFileName (VString r) = Normal r.
Proof.
  intros Hne [-> | Hno]; [done |].
  apply is_last_segment_extract. split; [done |]. split; [done |].
  exists "", "". split; [by rewrite string_app_nil_r | by auto].
Qed.

End ExtractFileNameAlgebra.

(** X1. The file name extracted from a string is never empty and never holds a
    separator, except that it may be the root marker ["/"] itself. *)
Theorem extractFileName_shape (p : string) :
  exists r, extractFileName (VString p) = Normal r /\
            r <> "" /\ (r = "/" \/ no_slash r = true).
Proof.
  rewrite extractFileName_string. eexists. split; [reflexivity |].
  apply (extract_shape p). by rewrite extractFileName_string.
Qed.

(** X2. Extraction is idempotent: extracting from an extracted file name gives
    that file name back. *)
Theorem extractFileName_idempotent (p : string) :
  (let! r := extractFileName (VString p) in extractFileName (VString r))
  = extractFileName (VString p).
Proof.
  destruct (extractFileName (VString p)) as [r|e] eqn:Hr; [| done]. cbn [bind].
  destruct (extract_shape p r Hr) as [Hne Hshape].
  by apply extract_fixed_point.
Qed.

(** X3. Extraction over a separator: the file name of [a/b] is the file name
    of [b], unless [b] holds separators only, in which case it is the file
    name of [a].  So trailing separators never matter, and neither do the
    directories before the last segment. *)
Theorem extractFileName_join (a b : string) :
  extractFileName (VString (a +:+ "/" +:+ b)) =
  (if all_slash b then extractFileName (VString a)
   else extractFileName (VString b)) /\
  extractFileName (VString (a +:+ "/")) = extractFileName (VString a).
Proof.
  split.
  - apply extractFileName_app_sep.
  - apply (extractFileName_app_sep a "").
Qed.

(** X4. On a value that is not a string, [extractFileName] returns the root
    marker when the value is falsy ([undefined], [null], [false], [0], [NaN])
    and throws a [TypeError] when it is truthy (a number, [true], an array, an
    object). *)
Theorem extractFileName_non_string (v : value) :
  (forall s, v <> VString s) ->
  extractFileName v =
  if truthy v then Throw (TypeError "path.split is not a function")
  else Normal "/".
Proof.
  intros Hv. destruct v as [| |b|x|s|l|m]; try done.
  - by destruct b.
  - by destruct x.
  - by destruct (Hv s).
Qed.

Lemma extractFileName_non_string_witness :
  extractFileName VNull = Normal "/" /\
  extractFileName (VArray []) = Throw (TypeError "path.split is not a function").
Proof.
  split.
  - apply (extractFileName_non_string VNull). discriminate.
  - apply (extractFileName_non_string (VArray [])). discriminate.
Defined.

(** ** The classifier on arbitrary arguments *)

Section ClassifierDomain.

Lemma field_props_of (args : value) (k : string) :
  field args k = prop (props_of args) k.
Proof.
  unfold field, props_of.
  destruct (or_else args (VObject ∅)); try apply eq_sym, prop_empty; done.
Qed.

Lemma get_field (args : value) (k : string) :
  get (or_else args (VObject ∅)) k = Normal (field args k).
Proof.
  unfold field.
  destruct args as [| |b|x|s|l|m]; try reflexivity.
  - by destruct b.
  - by destruct x.
  - by destruct s.
Qed.

(** Both classifiers see [args] through the three properties they read. *)
Lemma parseStrReplaceEditor_props_of (args : value) :
  parseStrReplaceEditor args = parseStrReplaceEditor (VObject (props_of args)).
Proof.
  rewrite parseStrReplaceEditor_object, <- !field_props_of.
  unfold parseStrReplaceEditor. by rewrite !get_field.
Qed.

Lemma parseFileManager_props_of (args : value) :
  parseFileManager args = parseFileManager (VObject (props_of args)).
Proof.
  rewrite parseFileManager_object, <- !field_props_of.
  unfold parseFileManager. by rewrite !get_field.
Qed.

Lemma parseToolInvocation_props_of (toolName : string) (args : value) :
  parseToolInvocation toolName args =
  parseToolInvocation toolName (VObject (props_of args)).
Proof.
  unfold parseToolInvocation.
  by rewrite <- parseStrReplaceEditor_props_of, <- parseFileManager_props_of.
Qed.

Lemma props_of_non_object (args : value) :
  (forall m, args <> VObject m) -> props_of args = ∅.
Proof.
  intros Hargs. unfold props_of.
  destruct (or_else args (VObject ∅)) eqn:E; try done.
  unfold or_else in E. destruct (truthy args); [| congruence].
  by destruct (Hargs props).
Qed.

Lemma extractFileName_or_else (v : value) :
  extractFileName (or_else v (VString "")) =
  if string_or_falsy v
  then extractFileName (VString (as_string v))
  else Throw (TypeError "path.split is not a function").
Proof.
  destruct (string_or_falsy v) eqn:Hv.
  - by rewrite (or_else_string v Hv).
  - by apply extractFileName_throws.
Qed.

End ClassifierDomain.

(** X5. Arguments that are not an object ([null], [undefined], a boolean, a
    number, a string, an array) are classified like the empty record: the
    classifier never fails on them. *)
Theorem parseToolInvocation_non_object (toolName : string) (args : value) :
  (forall m, args <> VObject m) ->
  parseToolInvocation toolName args = parseToolInvocation toolName (VObject ∅) /\
  returns (parseToolInvocation toolName args).
Proof.
  intros Hargs.
  rewrite parseToolInvocation_props_of, (props_of_non_object args Hargs).
  split; [done |].
  unfold parseToolInvocation.
  destruct (String.eqb toolName "str_replace_editor");
    [| destruct (String.eqb toolName "file_manager")]; by eexists.
Qed.

Lemma parseToolInvocation_non_object_witness :
  parseToolInvocation "file_manager" (VString "rename") =
  parseToolInvocation "file_manager" (VObject ∅) /\
  returns (parseToolInvocation "file_manager" (VString "rename")).
Proof.
  apply (parseToolInvocation_non_object "file_manager" (VString "rename")).
  discriminate.
Defined.

(** X6. The classifier depends on [args] through [command], [path] and
    [new_path] only: two argument values that agree on these three properties
    are classified alike, whatever else they hold. *)
Theorem parseToolInvocation_frame (toolName : string) (args1 args2 : value) :
  field args1 "command" = field args2 "command" ->
  field args1 "path" = field args2 "path" ->
  field args1 "new_path" = field args2 "new_path" ->
  parseToolInvocation toolName args1 = parseToolInvocation toolName args2.
Proof.
  rewrite !field_props_of. intros Hc Hp Hn.
  rewrite (parseToolInvocation_props_of toolName args1).
  rewrite (parseToolInvocation_props_of toolName args2).
  unfold parseToolInvocation.
  rewrite !parseStrReplaceEditor_object, !parseFileManager_object.
  by rewrite Hc, Hp, Hn.
Qed.

Lemma parseToolInvocation_frame_witness :
  parseToolInvocation "str_replace_editor"
    (js_object [("command", VString "create"); ("path", VString "/App.jsx");
                ("file_text", VString "export default App")]) =
  parseToolInvocation "str_replace_editor"
    (js_object [("command", VString "create"); ("path", VString "/App.jsx")]).
Proof.
  apply parseToolInvocation_frame; by vm_compute.
Defined.

(** [accepts] is the domain of the classifier. *)
Lemma classifier_domain (toolName : string) (args : value) :
  if accepts toolName args
  then returns (parseToolInvocation toolName args)
  else parseToolInvocation toolName args =
       Throw (TypeError "path.split is not a function").
Proof.
  rewrite parseToolInvocation_props_of.
  unfold accepts, parseToolInvocation. rewrite !field_props_of.
  destruct (String.eqb toolName "str_replace_editor").
  { rewrite parseStrReplaceEditor_object, extractFileName_or_else.
    destruct (string_or_falsy _); [| done].
    rewrite extractFileName_string. cbn [bind]. cbv zeta.
    repeat match goal with
           | |- context [if ?b then Normal _ else _] => destruct b
           end; by eexists. }
  destruct (String.eqb toolName "file_manager"); [| by eexists].
  rewrite parseFileManager_object, extractFileName_or_else.
  destruct (string_or_falsy (prop _ "path")); [| done].
  rewrite extractFileName_string. cbn [bind andb]. cbv zeta.
  destruct (strict_eq_string _ "delete"); [by eexists |].
  destruct (strict_eq_string _ "rename"); [| by eexists].
  rewrite extractFileName_or_else.
  destruct (string_or_falsy _); [| done].
  rewrite extractFileName_string. by eexists.
Qed.

(** X7. The classifier fails on exactly the arguments that [accepts] rules
    out: a truthy [path] that is not a string for the two file tools, or such
    a [new_path] in the rename branch.  The failure is always the same
    [TypeError]; other tool names never fail. *)
Theorem parseToolInvocation_domain (toolName : string) (args : value) :
  if accepts toolName args
  then returns (parseToolInvocation toolName args)
  else parseToolInvocation toolName args =
       Throw (TypeError "path.split is not a function").
Proof. apply classifier_domain. Qed.

(** ** What every descriptor of the classifier satisfies *)

Section Descriptors.

(** The descriptor of the editor, read off its result. *)
Lemma parseStrReplaceEditor_inv (args : value) (d : ToolMessage) :
  parseStrReplaceEditor args = Normal d ->
  exists s,
    or_else (field args "path") (VString "") = VString s /\
    filePath d = VString s /\
    extractFileName (VString s) = Normal (fileName d) /\
    details d = None /\
    (exists family, family_of_action (action d) = Some family /\ triad family d).
Proof.
  rewrite parseStrReplaceEditor_props_of, parseStrReplaceEditor_object.
  rewrite <- !field_props_of, extractFileName_or_else.
  destruct (string_or_falsy (field args "path")) eqn:Hp; [| done].
  rewrite (or_else_string _ Hp).
  destruct (extractFileName _) as [fn|] eqn:Hfn; [| done]. cbn [bind]. cbv zeta.
  intros Hd. exists (as_string (field args "path")).
  repeat match type of Hd with
         | (if ?b then _ else _) = _ => destruct b
         end.
  all: (injection Hd as <-).
  all: cbn; repeat split; try done.
  all: eexists; (split; [reflexivity | done]).
Qed.

Lemma parseFileManager_inv (args : value) (d : ToolMessage) :
  parseFileManager args = Normal d ->
  exists s,
    or_else (field args "path") (VString "") = VString s /\
    filePath d = VString s /\
    extractFileName (VString s) = Normal (fileName d) /\
    (forall x, details d = Some x ->
               exists n, x = "to " +:+ n /\ n <> "" /\
                         (n = "/" \/ no_slash n = true)) /\
    (exists family, family_of_action (action d) = Some family /\ triad family d).
Proof.
  rewrite parseFileManager_props_of, parseFileManager_object.
  rewrite <- !field_props_of, extractFileName_or_else.
  destruct (string_or_falsy (field args "path")) eqn:Hp; [| done].
  rewrite (or_else_string _ Hp).
  destruct (extractFileName _) as [fn|] eqn:Hfn; [| done]. cbn [bind]. cbv zeta.
  intros Hd. exists (as_string (field args "path")).
  destruct (strict_eq_string _ "delete").
  { injection Hd as <-. cbn. repeat split; try done.
    eexists; (split; [reflexivity | done]). }
  destruct (strict_eq_string _ "rename").
  - rewrite extractFileName_or_else in Hd.
    destruct (string_or_falsy (field args "new_path")); [| done].
    destruct (extractFileName (VString (as_string (field args "new_path"))))
      as [nfn|] eqn:Hnfn; [| done].
    cbn [bind] in Hd. injection Hd as <-. cbn. repeat split; try done.
    + intros x [= <-]. exists nfn. split; [done |].
      by apply (extract_shape _ _ Hnfn).
    + eexists; (split; [reflexivity | done]).
  - injection Hd as <-. cbn. repeat split; try done.
    eexists; (split; [reflexivity | done]).
Qed.

End Descriptors.

(** X8. For the two file tools, whatever the command is, every returned
    descriptor carries in [filePath] the string [path || ""] and in [fileName]
    the file name extracted from that very string; so [fileName] is never
    empty. *)
Theorem fileName_from_filePath (toolName : string) (args : value) (d : ToolMessage) :
  is_file_tool toolName = true ->
  parseToolInvocation toolName args = Normal d ->
  exists s,
    or_else (field args "path") (VString "") = VString s /\
    filePath d = VString s /\
    extractFileName (VString s) = Normal (fileName d) /\
    fileName d <> "".
Proof.
  unfold is_file_tool, parseToolInvocation.
  destruct (String.eqb toolName "str_replace_editor"); cbn [orb].
  - intros _ (s & Hs & Hpath & Hname & _)%parseStrReplaceEditor_inv.
    exists s. repeat split; try done. by apply (extract_shape s).
  - intros ->. intros (s & Hs & Hpath & Hname & _)%parseFileManager_inv.
    exists s. repeat split; try done. by apply (extract_shape s).
Qed.

Lemma fileName_from_filePath_witness :
  exists s,
    or_else (field (js_object [("command", VString "view");
                               ("path", VString "/src/lib/")]) "path")
            (VString "") = VString s /\
    filePath (mkToolMessage "Viewing" "lib" (VString "/src/lib/") Eye
                "text-blue-600" "bg-blue-50" "border-blue-200" None) = VString s /\
    extractFileName (VString s) = Normal "lib" /\
    "lib" <> "".
Proof.
  apply (fileName_from_filePath "str_replace_editor"
           (js_object [("command", VString "view"); ("path", VString "/src/lib/")])
           (mkToolMessage "Viewing" "lib" (VString "/src/lib/") Eye
              "text-blue-600" "bg-blue-50" "border-blue-200" None));
    by vm_compute.
Defined.

(** X9. Every descriptor the classifier returns has a coherent colour triad:
    [text-F-600], [bg-F-50] and [border-F-200] for one family [F], and the
    family is determined by the action verb. *)
Theorem descriptor_triad (toolName : string) (args : value) (d : ToolMessage) :
  parseToolInvocation toolName args = Normal d ->
  exists family, family_of_action (action d) = Some family /\ triad family d.
Proof.
  unfold parseToolInvocation.
  destruct (String.eqb toolName "str_replace_editor").
  { by intros (s & _ & _ & _ & _ & Hfam)%parseStrReplaceEditor_inv. }
  destruct (String.eqb toolName "file_manager").
  { by intros (s & _ & _ & _ & _ & Hfam)%parseFileManager_inv. }
  intros [= <-]. by exists "neutral".
Qed.

Lemma descriptor_triad_witness :
  exists family,
    family_of_action "Deleting" = Some family /\
    triad family (mkToolMessage "Deleting" "test.tsx" (VString "/test.tsx") FileX
                    "text-red-600" "bg-red-50" "border-red-200" None).
Proof.
  apply (descriptor_triad "file_manager"
           (js_object [("command", VString "delete"); ("path", VString "/test.tsx")])
           (mkToolMessage "Deleting" "test.tsx" (VString "/test.tsx") FileX
              "text-red-600" "bg-red-50" "border-red-200" None)).
  by vm_compute.
Defined.

(** A present [details] is a non-empty string. *)
Lemma details_to (toolName : string) (args : value) (d : ToolMessage) (x : string) :
  parseToolInvocation toolName args = Normal d ->
  details d = Some x ->
  exists n, x = "to " +:+ n /\ n <> "" /\ (n = "/" \/ no_slash n = true).
Proof.
  unfold parseToolInvocation.
  destruct (String.eqb toolName "str_replace_editor").
  { intros (s & _ & _ & _ & Hnone & _)%parseStrReplaceEditor_inv. congruence. }
  destruct (String.eqb toolName "file_manager").
  { intros (s & _ & _ & _ & Hdet & _)%parseFileManager_inv. apply Hdet. }
  by intros [= <-].
Qed.

(** X10. When [details] is present it reads ["to "] followed by a non-empty
    file name, so it is never an empty string; a rename without [new_path]
    reads ["to /"]. *)
Theorem details_shape (toolName : string) (args : value) (d : ToolMessage) (x : string) :
  parseToolInvocation toolName args = Normal d ->
  details d = Some x ->
  exists n, x = "to " +:+ n /\ n <> "" /\ (n = "/" \/ no_slash n = true).
Proof. apply details_to. Qed.

Lemma details_shape_witness :
  exists n, "to /" = "to " +:+ n /\ n <> "" /\ (n = "/" \/ no_slash n = true).
Proof.
  apply (details_shape "file_manager"
           (js_object [("command", VString "rename"); ("path", VString "/a.tsx")])
           (mkToolMessage "Renaming" "a.tsx" (VString "/a.tsx") FileSymlink
              "text-purple-600" "bg-purple-50" "border-purple-200" (Some "to /")));
    by vm_compute.
Defined.

(** X11. The two fallbacks differ in the icon and in nothing else: with a
    [path] that is a string or absent, a command the editor does not recognise
    gives the ["Processing"] descriptor with the [FileEdit] icon, and a
    command the file manager does not recognise gives the same descriptor
    with the [FileSymlink] icon. *)
Theorem fallback_icons_differ (args : value) :
  string_or_falsy (field args "path") = true ->
  exists fn,
    extractFileName (VString (as_string (field args "path"))) = Normal fn /\
    (editor_command (field args "command") = false ->
     parseStrReplaceEditor args =
     Normal (mkToolMessage "Processing" fn
               (VString (as_string (field args "path"))) FileEdit
               "text-neutral-600" "bg-neutral-50" "border-neutral-200" None)) /\
    (manager_command (field args "command") = false ->
     parseFileManager args =
     Normal (mkToolMessage "Processing" fn
               (VString (as_string (field args "path"))) FileSymlink
               "text-neutral-600" "bg-neutral-50" "border-neutral-200" None)).
Proof.
  intros Hp.
  destruct (extractFileName_returns _ Hp) as (fn & Hfn & Hfn').
  exists fn. split; [done |].
  rewrite parseStrReplaceEditor_props_of, parseFileManager_props_of.
  rewrite parseStrReplaceEditor_object, parseFileManager_object.
  rewrite <- !field_props_of, Hfn, (or_else_string _ Hp). cbn [bind]. cbv zeta.
  unfold editor_command, manager_command. split.
  - intros Hcmd. repeat (apply orb_false_iff in Hcmd as [Hcmd ?]).
    by repeat match goal with
              | H : strict_eq_string _ _ = false |- _ => rewrite H; clear H
              end.
  - intros Hcmd. apply orb_false_iff in Hcmd as [-> ->]. done.
Qed.

Lemma fallback_icons_differ_witness :
  exists fn,
    extractFileName (VString "/test.js") = Normal fn /\
    parseStrReplaceEditor
      (js_object [("command", VString "unknown"); ("path", VString "/test.js")]) =
    Normal (mkToolMessage "Processing" fn (VString "/test.js") FileEdit
              "text-neutral-600" "bg-neutral-50" "border-neutral-200" None) /\
    parseFileManager
      (js_object [("command", VString "unknown"); ("path", VString "/test.js")]) =
    Normal (mkToolMessage "Processing" fn (VString "/test.js") FileSymlink
              "text-neutral-600" "bg-neutral-50" "border-neutral-200" None).
Proof.
  destruct (fallback_icons_differ
              (js_object [("command", VString "unknown");
                          ("path", VString "/test.js")]))
    as (fn & Hfn & Heditor & Hmanager); [by vm_compute |].
  exists fn. split; [exact Hfn |].
  split; [apply Heditor | apply Hmanager]; by vm_compute.
Defined.

(** X12. [new_path] is read in the rename branch of the file manager and
    nowhere else: outside that branch two argument values that agree on
    [command] and [path] are classified alike even when [new_path] differs,
    be it malformed. *)
Theorem new_path_only_for_rename (toolName : string) (args1 args2 : value) :
  field args1 "command" = field args2 "command" ->
  field args1 "path" = field args2 "path" ->
  toolName <> "file_manager" \/ field args1 "command" <> VString "rename" ->
  parseToolInvocation toolName args1 = parseToolInvocation toolName args2.
Proof.
  rewrite !field_props_of. intros Hc Hp Hother.
  rewrite (parseToolInvocation_props_of toolName args1).
  rewrite (parseToolInvocation_props_of toolName args2).
  unfold parseToolInvocation.
  rewrite !parseStrReplaceEditor_object, !parseFileManager_object.
  rewrite Hc, Hp. cbv zeta.
  destruct (String.eqb toolName "str_replace_editor"); [done |].
  destruct (String.eqb toolName "file_manager") eqn:Hm; [| done].
  apply String.eqb_eq in Hm.
  destruct (strict_eq_string (prop (props_of args2) "command") "rename") eqn:Hr;
    [| reflexivity].
  apply strict_eq_string_true in Hr. destruct Hother as [Hne | Hne]; [done |].
  rewrite Hc in Hne. done.
Qed.

Lemma new_path_only_for_rename_witness :
  parseToolInvocation "file_manager"
    (js_object [("command", VString "delete"); ("path", VString "/a.tsx");
                ("new_path", VNumber (S754_finite false 7 0))]) =
  parseToolInvocation "file_manager"
    (js_object [("command", VString "delete"); ("path", VString "/a.tsx")]).
Proof.
  apply new_path_only_for_rename;
    [by vm_compute | by vm_compute | right; by vm_compute].
Defined.

(** ** The whole render of [ToolCallDisplay] *)

Section RenderFacts.

Import Display.

Variable JSON_stringify : value -> string.

Lemma opt_get_field (args : value) (k : string) : opt_get args k = field args k.
Proof.
  unfold field, opt_get.
  destruct args as [| |b|x|s|l|m]; try (symmetry; apply prop_empty); try done.
  - destruct b; [done | symmetry; apply prop_empty].
  - destruct x; try done; symmetry; apply prop_empty.
  - destruct s; [symmetry; apply prop_empty | done].
Qed.

(** Every falsy value is a valid child. *)
Lemma renderable_falsy (v : value) : truthy v = false -> renderable v = true.
Proof. by destruct v. Qed.

(** A row that shows its own condition renders unless that value is an
    invalid child. *)
Lemma jsx_row_self (v : value) :
  jsx_row v v =
  if renderable v then Normal (jsx_and v v)
  else Throw (Error "Objects are not valid as a React child").
Proof.
  unfold jsx_row, jsx_and, react_child.
  destruct (truthy v) eqn:Hv.
  - by destruct (renderable v).
  - by rewrite (renderable_falsy v Hv).
Qed.

(** The panel, row by row. *)
Lemma render_panel_outcome (inv : ToolInvocation) (m : ToolMessage) :
  renderable (filePath m) = true ->
  render_panel JSON_stringify inv m =
  if renderable (field (args inv) "command")
     && renderable (field (args inv) "new_path")
  then Normal (mkPanel (toolName inv)
                 (jsx_and (field (args inv) "command") (field (args inv) "command"))
                 (jsx_and (filePath m) (filePath m))
                 (jsx_and (field (args inv) "new_path") (field (args inv) "new_path"))
                 (result_block JSON_stringify inv))
  else Throw (Error "Objects are not valid as a React child").
Proof.
  intros Hpath. unfold render_panel.
  rewrite !opt_get_field, !jsx_row_self, Hpath.
  destruct (renderable (field (args inv) "command")); [| done].
  by destruct (renderable (field (args inv) "new_path")).
Qed.

(** The classifier only returns descriptors whose [filePath] is a string. *)
Lemma filePath_renderable (toolName : string) (args : value) (m : ToolMessage) :
  parseToolInvocation toolName args = Normal m -> renderable (filePath m) = true.
Proof.
  unfold parseToolInvocation.
  destruct (String.eqb toolName "str_replace_editor").
  { by intros (s & _ & -> & _)%parseStrReplaceEditor_inv. }
  destruct (String.eqb toolName "file_manager").
  { by intros (s & _ & -> & _)%parseFileManager_inv. }
  by intros [= <-].
Qed.

(** The render, once the classifier has returned. *)
Lemma render_classified (inv : ToolInvocation) (isExpanded : bool) (m : ToolMessage) :
  parseToolInvocation (toolName inv) (args inv) = Normal m ->
  exists h,
    ToolCallDisplay inv isExpanded = Normal h /\
    indicator h = (if isCompleted inv then CheckCircle2 else Loader2) /\
    operationIcon h = icon m /\
    label h = action m +:+ " " +:+ fileName m /\
    detailsText h = details m /\
    ariaLabel h = label h +:+ match details m with
                              | Some d => " " +:+ d
                              | None => ""
                              end /\
    ariaExpanded h = isExpanded /\
    chevron h = (if isExpanded then ChevronDown else ChevronRight) /\
    render JSON_stringify inv isExpanded =
    if negb isExpanded
       || (renderable (field (args inv) "command")
           && renderable (field (args inv) "new_path"))
    then
      Normal (mkRendered h
                (jsx_and (VBool isExpanded)
                   (mkPanel (toolName inv)
                      (jsx_and (field (args inv) "command") (field (args inv) "command"))
                      (jsx_and (filePath m) (filePath m))
                      (jsx_and (field (args inv) "new_path") (field (args inv) "new_path"))
                      (result_block JSON_stringify inv))))
    else Throw (Error "Objects are not valid as a React child").
Proof.
  intros Hm. unfold render, ToolCallDisplay. rewrite Hm. cbn [bind].
  eexists. split; [reflexivity |]. cbn [indicator operationIcon label detailsText
                                       ariaLabel ariaExpanded chevron].
  assert (shown_details m = details m) as Hshown.
  { unfold shown_details. destruct (details m) as [x|] eqn:Hx; [| done].
    destruct (details_to _ _ _ _ Hm Hx) as (n & -> & _). done. }
  rewrite Hshown.
  repeat (split; [done |]). split; [by rewrite !string_app_assoc |].
  split; [done |]. split; [done |].
  destruct isExpanded; [| done]. cbn [negb orb].
  rewrite (render_panel_outcome inv m (filePath_renderable _ _ _ Hm)).
  by destruct (renderable (field (args inv) "command")
               && renderable (field (args inv) "new_path")).
Qed.

(** What a render that returned looks like. *)
Lemma render_normal (inv : ToolInvocation) (isExpanded : bool) (r : Rendered) :
  render JSON_stringify inv isExpanded = Normal r ->
  exists m,
    parseToolInvocation (toolName inv) (args inv) = Normal m /\
    ToolCallDisplay inv isExpanded = Normal (header r) /\
    indicator (header r) = (if isCompleted inv then CheckCircle2 else Loader2) /\
    operationIcon (header r) = icon m /\
    label (header r) = action m +:+ " " +:+ fileName m /\
    detailsText (header r) = details m /\
    ariaLabel (header r) = label (header r) +:+ match details m with
                                                | Some d => " " +:+ d
                                                | None => ""
                                                end /\
    ariaExpanded (header r) = isExpanded /\
    chevron (header r) = (if isExpanded then ChevronDown else ChevronRight) /\
    panel r =
    jsx_and (VBool isExpanded)
      (mkPanel (toolName inv)
         (jsx_and (field (args inv) "command") (field (args inv) "command"))
         (jsx_and (filePath m) (filePath m))
         (jsx_and (field (args inv) "new_path") (field (args inv) "new_path"))
         (result_block JSON_stringify inv)).
Proof.
  intros Hr.
  destruct (parseToolInvocation (toolName inv) (args inv)) as [m|e] eqn:Hm.
  2: { unfold render in Hr. by rewrite Hm in Hr. }
  destruct (render_classified inv isExpanded m Hm)
    as (h & Hh & Hi & Ho & Hl & Hd & Ha & He & Hc & Hrender).
  rewrite Hrender in Hr.
  destruct (negb isExpanded || _); [| done].
  injection Hr as <-. by exists m.
Qed.

(** When a render returns and when it throws. *)
Lemma render_outcome (inv : ToolInvocation) (isExpanded : bool) :
  if accepts (toolName inv) (args inv)
  then
    if negb isExpanded
       || (renderable (opt_get (args inv) "command")
           && renderable (opt_get (args inv) "new_path"))
    then returns (render JSON_stringify inv isExpanded)
    else render JSON_stringify inv isExpanded =
         Throw (Error "Objects are not valid as a React child")
  else render JSON_stringify inv isExpanded =
       Throw (TypeError "path.split is not a function").
Proof.
  pose proof (classifier_domain (toolName inv) (args inv)) as Hdom.
  rewrite !opt_get_field.
  destruct (accepts _ _).
  - destruct Hdom as [m Hm].
    destruct (render_classified inv isExpanded m Hm)
      as (h & _ & _ & _ & _ & _ & _ & _ & _ & ->).
    destruct (negb isExpanded || _); [by eexists | done].
  - unfold render. by rewrite Hdom.
Qed.

Lemma renders_returns (inv : ToolInvocation) (isExpanded : bool) :
  if renders inv isExpanded
  then returns (render JSON_stringify inv isExpanded)
  else throws (render JSON_stringify inv isExpanded).
Proof.
  pose proof (render_outcome inv isExpanded) as Hout. unfold renders.
  destruct (accepts _ _); cbn [andb].
  - destruct (negb isExpanded || _); [done | by eexists].
  - by eexists.
Qed.

Lemma truthy_or_else_path (v : value) (s : string) :
  or_else v (VString "") = VString s ->
  truthy (VString s) = true <-> v = VString s /\ s <> "".
Proof.
  unfold or_else. destruct (truthy v) eqn:Hv.
  - intros ->. split; [| by intros [_ ?]; destruct s].
    intros _. split; [done |]. by intros ->.
  - intros [= <-]. split; [done | by intros [_ ?]].
Qed.

(** The indicator of a header, in terms of the invocation. *)
Lemma indicator_cases (inv : ToolInvocation) (h : Header) :
  indicator h = (if isCompleted inv then CheckCircle2 else Loader2) ->
  (indicator h = CheckCircle2 <-> completed_invocation inv) /\
  (indicator h = Loader2 <-> ~ completed_invocation inv) /\
  (state inv = Result -> result inv = VUndefined -> indicator h = Loader2).
Proof.
  intros ->. rewrite <- isCompleted_spec.
  split; [| split].
  - destruct (isCompleted inv); by split.
  - destruct (isCompleted inv); by split.
  - intros _ Hr. by rewrite (isCompleted_undefined inv Hr).
Qed.

End RenderFacts.

Section RenderProperties.

Import Display.

Variable JSON_stringify : value -> string.

(** C10. Every tool invocation that [ToolCallDisplay] can render is rendered,
    whatever its state and result are, and in the rendered header the
    completed indicator (the check mark) is shown if and only if the state is
    ["result"] and the result is not [undefined]; otherwise the spinner is
    shown, in particular for state ["result"] with an undefined result.  The
    invocations that cannot be rendered are those whose arguments the
    classifier rejects or, when expanded, whose rows hold an invalid child. *)
Theorem indicator_completed (inv : ToolInvocation) (isExpanded : bool) :
  (if renders inv isExpanded
   then exists r,
          render JSON_stringify inv isExpanded = Normal r /\
          ToolCallDisplay inv isExpanded = Normal (header r) /\
          (indicator (header r) = CheckCircle2 <-> completed_invocation inv) /\
          (indicator (header r) = Loader2 <-> ~ completed_invocation inv) /\
          (state inv = Result -> result inv = VUndefined ->
           indicator (header r) = Loader2)
   else throws (render JSON_stringify inv isExpanded)) /\
  (forall h,
     ToolCallDisplay inv isExpanded = Normal h ->
     (indicator h = CheckCircle2 <-> completed_invocation inv) /\
     (indicator h = Loader2 <-> ~ completed_invocation inv) /\
     (state inv = Result -> result inv = VUndefined -> indicator h = Loader2)).
Proof.
  split.
  - pose proof (renders_returns JSON_stringify inv isExpanded) as Hr.
    destruct (renders inv isExpanded); [| done].
    destruct Hr as [r Hr]. exists r. split; [done |].
    destruct (render_normal JSON_stringify inv isExpanded r Hr)
      as (m & _ & Hh & Hi & _).
    split; [done |]. by apply indicator_cases.
  - intros h Hh. by apply indicator_cases, (indicator_of_render inv isExpanded).
Qed.

(** X13. A render of [ToolCallDisplay] throws in two cases only: when the
    classifier rejects the arguments, with the classifier's [TypeError], and,
    with the panel expanded, when [args.command] or [args.new_path] is an
    object or an array that holds one, which React refuses as a child.  A
    collapsed render fails with the classifier only. *)
Theorem render_domain (inv : ToolInvocation) (isExpanded : bool) :
  if accepts (toolName inv) (args inv)
  then
    if negb isExpanded
       || (renderable (opt_get (args inv) "command")
           && renderable (opt_get (args inv) "new_path"))
    then returns (render JSON_stringify inv isExpanded)
    else render JSON_stringify inv isExpanded =
         Throw (Error "Objects are not valid as a React child")
  else render JSON_stringify inv isExpanded =
       Throw (TypeError "path.split is not a function").
Proof. apply render_outcome. Qed.

(** X14. The accessible name of the header is the visible label, action and
    file name separated by a space, followed by a space and the details
    exactly when details are displayed. *)
Theorem aria_label_of_header (inv : ToolInvocation) (isExpanded : bool) (r : Rendered) :
  render JSON_stringify inv isExpanded = Normal r ->
  exists m,
    parseToolInvocation (toolName inv) (args inv) = Normal m /\
    label (header r) = action m +:+ " " +:+ fileName m /\
    detailsText (header r) = details m /\
    ariaLabel (header r) =
    label (header r) +:+ match detailsText (header r) with
                         | Some d => " " +:+ d
                         | None => ""
                         end.
Proof.
  intros Hr.
  destruct (render_normal JSON_stringify inv isExpanded r Hr)
    as (m & Hm & _ & _ & _ & Hl & Hd & Ha & _).
  exists m. by rewrite Hd.
Qed.

(** X15. Toggling a rendered component either renders it again, with the
    chevron, [aria-expanded] and the presence of the panel changed and nothing
    else of the header, or fails; it can fail only when expanding, on an
    invalid child, never when collapsing.  The panel is rendered exactly when
    the component is expanded.  Enter and Space toggle like a click, any other
    key leaves the component as it is, and two toggles restore it. *)
Theorem toggle_render (inv : ToolInvocation) (isExpanded : bool) (r : Rendered) :
  render JSON_stringify inv isExpanded = Normal r ->
  (if renders inv (handleToggle isExpanded)
   then exists r',
          render JSON_stringify inv (handleToggle isExpanded) = Normal r' /\
          is_element (panel r) = isExpanded /\
          is_element (panel r') = negb isExpanded /\
          ariaExpanded (header r) = isExpanded /\
          ariaExpanded (header r') = negb isExpanded /\
          chevron (header r) = (if isExpanded then ChevronDown else ChevronRight) /\
          chevron (header r') = (if isExpanded then ChevronRight else ChevronDown) /\
          ariaLabel (header r') = ariaLabel (header r) /\
          indicator (header r') = indicator (header r) /\
          operationIcon (header r') = operationIcon (header r) /\
          label (header r') = label (header r) /\
          detailsText (header r') = detailsText (header r)
   else render JSON_stringify inv (handleToggle isExpanded) =
        Throw (Error "Objects are not valid as a React child")) /\
  (isExpanded = true -> renders inv (handleToggle isExpanded) = true) /\
  handleKeyDown "Enter" isExpanded = handleToggle isExpanded /\
  handleKeyDown " " isExpanded = handleToggle isExpanded /\
  (forall key, key <> "Enter" -> key <> " " ->
               handleKeyDown key isExpanded = isExpanded) /\
  handleToggle (handleToggle isExpanded) = isExpanded.
Proof.
  intros Hr.
  destruct (render_normal JSON_stringify inv isExpanded r Hr)
    as (m & Hm & _ & Hi & Ho & Hl & Hd & Ha & He & Hc & Hp).
  pose proof (classifier_domain (toolName inv) (args inv)) as Hacc.
  destruct (accepts (toolName inv) (args inv)) eqn:Haccepts;
    [| by rewrite Hm in Hacc].
  pose proof (render_outcome JSON_stringify inv (handleToggle isExpanded)) as Hout.
  rewrite Haccepts in Hout. unfold renders. rewrite Haccepts. cbn [andb].
  split; [| split; [| split; [| split; [| split]]]].
  - destruct (negb (handleToggle isExpanded) || _); [| done].
    destruct Hout as [r' Hr'].
    destruct (render_normal JSON_stringify inv (handleToggle isExpanded) r' Hr')
      as (m' & Hm' & _ & Hi' & Ho' & Hl' & Hd' & Ha' & He' & Hc' & Hp').
    rewrite Hm in Hm'. injection Hm' as <-.
    exists r'. split; [done |].
    rewrite Hp, Hp', He, He', Hc, Hc', Ha, Ha', Hi, Hi', Ho, Ho', Hl, Hl', Hd, Hd'.
    unfold handleToggle. by destruct isExpanded.
  - by intros ->.
  - done.
  - done.
  - intros key HE HS. unfold handleKeyDown.
    apply String.eqb_neq in HE, HS. by rewrite HE, HS.
  - apply negb_involutive.
Qed.

(** X16. In the expanded panel the Result block is there exactly when the
    state is ["result"] and the result is truthy; a string result is shown as
    it is.  So a completed invocation with a falsy result ([null], [0],
    [false], the empty string) has the check mark and no Result block. *)
Theorem result_block_shown
    (inv : ToolInvocation) (isExpanded : bool) (r : Rendered) (p : Panel) :
  render JSON_stringify inv isExpanded = Normal r ->
  panel r = Element p ->
  (is_element (resultRow p) = true <->
   state inv = Result /\ truthy (result inv) = true) /\
  (forall s, state inv = Result -> result inv = VString s -> s <> "" ->
             resultRow p = Element s) /\
  (state inv = Result -> result inv <> VUndefined -> truthy (result inv) = false ->
   indicator (header r) = CheckCircle2 /\ resultRow p = Skipped (result inv)).
Proof.
  intros Hr Hp.
  destruct (render_normal JSON_stringify inv isExpanded r Hr)
    as (m & Hm & _ & Hi & _ & _ & _ & _ & _ & _ & Hpanel).
  rewrite Hpanel in Hp.
  unfold jsx_and in Hp. destruct (truthy (VBool isExpanded)); [| done].
  injection Hp as <-. cbn [resultRow]. rewrite Hi.
  unfold result_block, isCompleted, jsx_and.
  assert (truthy (result inv) = true -> is_defined (result inv) = true) as Hdefined.
  { by destruct (result inv). }
  split; [| split].
  - destruct (state inv); cbn [state_is_result andb is_element];
      try (split; [done | by intros [? _]]).
    destruct (truthy (result inv)) eqn:Ht.
    + rewrite Hdefined by done. by split.
    + destruct (is_defined (result inv)); cbn; split; try done; by intros [_ ?].
  - intros s -> -> Hs. cbn. by destruct s.
  - intros -> Hdef Hfalsy. rewrite Hfalsy.
    by destruct (result inv).
Qed.

(** X17. In the expanded panel the Path row is there exactly when the tool is
    one of the two file tools and [path] is a non-empty string; for any other
    tool the row is absent even when the arguments carry a path. *)
Theorem path_row_shown
    (inv : ToolInvocation) (isExpanded : bool) (r : Rendered) (p : Panel) :
  render JSON_stringify inv isExpanded = Normal r ->
  panel r = Element p ->
  (is_element (pathRow p) = true <->
   is_file_tool (toolName inv) = true /\
   exists s, field (args inv) "path" = VString s /\ s <> "") /\
  (forall s, is_element (pathRow p) = true ->
             field (args inv) "path" = VString s -> pathRow p = Element (VString s)).
Proof.
  intros Hr Hp.
  destruct (render_normal JSON_stringify inv isExpanded r Hr)
    as (m & Hm & _ & _ & _ & _ & _ & _ & _ & _ & Hpanel).
  rewrite Hpanel in Hp.
  unfold jsx_and in Hp. destruct (truthy (VBool isExpanded)); [| done].
  injection Hp as <-. cbn [pathRow].
  destruct (is_file_tool (toolName inv)) eqn:Htool.
  - assert (exists s, or_else (field (args inv) "path") (VString "") = VString s /\
                      filePath m = VString s) as (s & Hs & Hpath).
    { revert Hm. unfold is_file_tool, parseToolInvocation in *.
      destruct (String.eqb (toolName inv) "str_replace_editor").
      - intros (s & Hs & Hpath & _)%parseStrReplaceEditor_inv. by exists s.
      - cbn [orb] in Htool. rewrite Htool.
        intros (s & Hs & Hpath & _)%parseFileManager_inv. by exists s. }
    rewrite Hpath. unfold jsx_and.
    pose proof (truthy_or_else_path _ _ Hs) as Htruthy.
    destruct (truthy (VString s)) eqn:Hts; cbn.
    + destruct (proj1 Htruthy eq_refl) as [Hv Hne].
      split; [split; [by eauto | done] |].
      intros s' _ Hs'. congruence.
    + split; [| done]. split; [done |].
      intros [_ (s' & Hs' & Hne)].
      unfold or_else in Hs. rewrite Hs' in Hs.
      destruct s'; [done |]. cbn in Hs. injection Hs as <-. done.
  - assert (filePath m = VString "") as ->.
    { revert Hm. unfold is_file_tool, parseToolInvocation in *.
      apply orb_false_iff in Htool as [-> ->]. by intros [= <-]. }
    cbn. split; [| done]. split; [done | by intros [? _]].
Qed.

End RenderProperties.

(** An object-valued [command] is classified (as an unrecognised command) but
    cannot be shown in the expanded panel. *)
Example render_object_command :
  Display.render (fun _ => "{}")
    (Display.mkToolInvocation "call_3" "str_replace_editor"
       (js_object [("command", js_object [("a", VBool true)]);
                   ("path", VString "/App.jsx")])
       Display.Call VUndefined) true
  = Throw (Error "Objects are not valid as a React child") /\
  returns
    (Display.render (fun _ => "{}")
       (Display.mkToolInvocation "call_3" "str_replace_editor"
          (js_object [("command", js_object [("a", VBool true)]);
                      ("path", VString "/App.jsx")])
          Display.Call VUndefined) false).
Proof. split; [by vm_compute | eexists; by vm_compute]. Qed.

Lemma indicator_completed_witness :
  exists r,
    Display.render (fun _ => "{}")
      (Display.mkToolInvocation "call_130" "str_replace_editor"
         (js_object [("command", VString "create"); ("path", VString "/test.tsx")])
         Display.Result VUndefined) false = Normal r /\
    Display.indicator (Display.header r) = Loader2.
Proof.
  destruct (indicator_completed (fun _ => "{}")
              (Display.mkToolInvocation "call_130" "str_replace_editor"
                 (js_object [("command", VString "create");
                             ("path", VString "/test.tsx")])
                 Display.Result VUndefined) false) as [Hrender _].
  assert (Display.renders
            (Display.mkToolInvocation "call_130" "str_replace_editor"
               (js_object [("command", VString "create");
                           ("path", VString "/test.tsx")])
               Display.Result VUndefined) false = true) as Hrenders
    by (by vm_compute).
  rewrite Hrenders in Hrender.
  destruct Hrender as (r & Hr & _ & _ & _ & Hspinner).
  exists r. split; [exact Hr |]. by apply Hspinner.
Defined.

Lemma aria_label_of_header_witness :
  exists r m,
    Display.render (fun _ => "{}")
      (Display.mkToolInvocation "call_127" "file_manager"
         (js_object [("command", VString "rename"); ("path", VString "/OldName.tsx");
                     ("new_path", VString "/NewName.tsx")])
         Display.Call VUndefined) false = Normal r /\
    parseToolInvocation "file_manager"
      (js_object [("command", VString "rename"); ("path", VString "/OldName.tsx");
                  ("new_path", VString "/NewName.tsx")]) = Normal m /\
    Display.label (Display.header r) = action m +:+ " " +:+ fileName m /\
    Display.detailsText (Display.header r) = details m /\
    Display.ariaLabel (Display.header r) = "Renaming OldName.tsx to NewName.tsx".
Proof.
  eexists.
  destruct (aria_label_of_header (fun _ => "{}")
              (Display.mkToolInvocation "call_127" "file_manager"
                 (js_object [("command", VString "rename");
                             ("path", VString "/OldName.tsx");
                             ("new_path", VString "/NewName.tsx")])
                 Display.Call VUndefined) false _ ltac:(by vm_compute))
    as (m & Hm & Hl & Hd & Ha).
  exists m. split; [reflexivity |]. split; [exact Hm |].
  split; [exact Hl |]. split; [exact Hd |]. reflexivity.
Defined.

Lemma toggle_render_witness :
  exists r r',
    Display.render (fun _ => "{}")
      (Display.mkToolInvocation "call_132" "str_replace_editor"
         (js_object [("command", VString "create"); ("path", VString "/test.tsx")])
         Display.Result (VString "Success")) false = Normal r /\
    Display.render (fun _ => "{}")
      (Display.mkToolInvocation "call_132" "str_replace_editor"
         (js_object [("command", VString "create"); ("path", VString "/test.tsx")])
         Display.Result (VString "Success")) true = Normal r' /\
    Display.is_element (Display.panel r) = false /\
    Display.is_element (Display.panel r') = true.
Proof.
  eexists.
  destruct (toggle_render (fun _ => "{}")
              (Display.mkToolInvocation "call_132" "str_replace_editor"
                 (js_object [("command", VString "create");
                             ("path", VString "/test.tsx")])
                 Display.Result (VString "Success")) false _ ltac:(by vm_compute))
    as [Htoggle _].
  assert (Display.renders
            (Display.mkToolInvocation "call_132" "str_replace_editor"
               (js_object [("command", VString "create");
                           ("path", VString "/test.tsx")])
               Display.Result (VString "Success"))
            (Display.handleToggle false) = true) as Hrenders
    by (by vm_compute).
  rewrite Hrenders in Htoggle.
  destruct Htoggle as (r' & Hr' & Hp & Hp' & _).
  exists r'. split; [reflexivity |]. split; [exact Hr' |].
  split; [exact Hp | exact Hp'].
Defined.

Lemma result_block_shown_witness :
  exists r p,
    Display.render (fun _ => "{}")
      (Display.mkToolInvocation "call_1" "str_replace_editor"
         (js_object [("command", VString "view"); ("path", VString "/empty.txt")])
         Display.Result (VString "")) true = Normal r /\
    Display.panel r = Display.Element p /\
    Display.indicator (Display.header r) = CheckCircle2 /\
    Display.resultRow p = Display.Skipped (VString "").
Proof.
  eexists. eexists. split; [by vm_compute |]. split; [reflexivity |].
  eapply (result_block_shown (fun _ => "{}")
            (Display.mkToolInvocation "call_1" "str_replace_editor"
               (js_object [("command", VString "view");
                           ("path", VString "/empty.txt")])
               Display.Result (VString "")) true);
    [by vm_compute | reflexivity | reflexivity | discriminate | reflexivity].
Defined.

Lemma path_row_shown_witness :
  exists r p,
    Display.render (fun _ => "{}")
      (Display.mkToolInvocation "call_2" "unknown_tool"
         (js_object [("path", VString "/App.jsx")])
         Display.Call VUndefined) true = Normal r /\
    Display.panel r = Display.Element p /\
    (Display.is_element (Display.pathRow p) = true <->
     is_file_tool "unknown_tool" = true /\
     exists s, field (js_object [("path", VString "/App.jsx")]) "path" = VString s /\
               s <> "").
Proof.
  eexists. eexists. split; [by vm_compute |]. split; [reflexivity |].
  eapply (path_row_shown (fun _ => "{}")
            (Display.mkToolInvocation "call_2" "unknown_tool"
               (js_object [("path", VString "/App.jsx")])
               Display.Call VUndefined) true);
    [by vm_compute | reflexivity].
Defined.

(** ** The hook on every path of the resolver *)

Section HookProperties.

Import Auth.

Context {World Message FileRecord : Type}.
Variable C : Collaborators World Message FileRecord.

Abbreviation HookState := (HookState World Message FileRecord).
Abbreviation Invocation := (Invocation Message FileRecord).






Lemma invoke_normal {A B} (what : Invocation) (f : call A) (k : A -> M B)
    (st : HookState) (a : A) (w : World) :
  f (world st) = (Normal a, w) ->
  hook_bind (invoke what f) k st =
  k a (mkHookState w (isLoading st) (calls st ++ [what])).
Proof. intros Hf. unfold hook_bind, invoke. by rewrite Hf. Qed.

Lemma invoke_throw {A B} (what : Invocation) (f : call A) (k : A -> M B)
    (st : HookState) (e : exn) (w : World) :
  f (world st) = (Throw e, w) ->
  hook_bind (invoke what f) k st =
  (Throw e, mkHookState w (isLoading st) (calls st ++ [what])).
Proof. intros Hf. unfold hook_bind, invoke. by rewrite Hf. Qed.

Lemma invoke_last {A} (what : Invocation) (f : call A)
    (st : HookState) (outcome : completion A) (w : World) :
  f (world st) = (outcome, w) ->
  invoke what f st =
  (outcome, mkHookState w (isLoading st) (calls st ++ [what])).
Proof. intros Hf. unfold invoke. by rewrite Hf. Qed.

Lemma read_step {A B} (f : World -> A * World) (k : A -> M B)
    (st : HookState) (a : A) (w : World) :
  f (world st) = (a, w) ->
  hook_bind (read f) k st = k a (mkHookState w (isLoading st) (calls st)).
Proof. intros Hf. unfold hook_bind, read. by rewrite Hf. Qed.

Lemma anon_work_present_nonempty (work : AnonymousWork Message FileRecord) :
  messages work <> [] -> anon_work_present (Some work) = true.
Proof. unfold anon_work_present. by destruct (messages work). Qed.

(** X19. With anonymous work present, a successful attempt creates a project
    named ["Design from "] plus the current time out of the messages and the
    files of that work, then clears the store, then navigates to the new
    project; the project listing is not consulted. *)
Theorem anonymous_work_flow (kind : AuthKind) (email password : string)
    (st : HookState) (r : AuthResult) (work : AnonymousWork Message FileRecord)
    (now : string) (project : Project) (w1 w2 w3 w4 w5 w6 : World) :
  let spec := mkProjectSpec ("Design from " +:+ now)
                (messages work) (fileSystemData work) in
  authAction C kind email password (world st) = (Normal r, w1) ->
  success r = true ->
  getAnonWorkData C w1 = (Normal (Some work), w2) ->
  messages work <> [] ->
  localeTimeString C w2 = (now, w3) ->
  createProject C spec w3 = (Normal project, w4) ->
  clearAnonWork C w4 = (Normal tt, w5) ->
  navigateTo C ("/" +:+ id project) w5 = (Normal tt, w6) ->
  authenticate C kind email password st =
  (Normal r,
   mkHookState w6 false
     (calls st ++ [CallAuth kind email password; CallGetAnonWorkData;
                   CallCreateProject spec; CallClearAnonWork;
                   CallNavigateTo ("/" +:+ id project)])).
Proof.
  intros spec Hauth Hok Hread Hmsgs Htime Hcreate Hclear Hnav.
  rewrite authenticate_unfold. cbv zeta.
  rewrite (attempt_auth_succeeded C kind email password
             (mkHookState (world st) true (calls st)) r w1 Hauth Hok).
  unfold handlePostSignIn.
  erewrite invoke_normal by exact Hread.
  unfold resolveWith. rewrite (anon_work_present_nonempty work Hmsgs).
  erewrite read_step by exact Htime.
  erewrite invoke_normal by exact Hcreate.
  erewrite invoke_normal by exact Hclear.
  erewrite invoke_last by exact Hnav.
  cbn. by rewrite <- !app_assoc.
Qed.

(** X20. When the creation of the project out of anonymous work fails, the
    error reaches the caller, the flag is lowered, and the anonymous work is
    neither cleared nor left behind by a navigation. *)
Theorem anonymous_work_kept_on_failure (kind : AuthKind) (email password : string)
    (st : HookState) (r : AuthResult) (work : AnonymousWork Message FileRecord)
    (now : string) (e : exn) (w1 w2 w3 w4 : World) :
  let spec := mkProjectSpec ("Design from " +:+ now)
                (messages work) (fileSystemData work) in
  authAction C kind email password (world st) = (Normal r, w1) ->
  success r = true ->
  getAnonWorkData C w1 = (Normal (Some work), w2) ->
  messages work <> [] ->
  localeTimeString C w2 = (now, w3) ->
  createProject C spec w3 = (Throw e, w4) ->
  authenticate C kind email password st =
  (Throw e,
   mkHookState w4 false
     (calls st ++ [CallAuth kind email password; CallGetAnonWorkData;
                   CallCreateProject spec])).
Proof.
  intros spec Hauth Hok Hread Hmsgs Htime Hcreate.
  rewrite authenticate_unfold. cbv zeta.
  rewrite (attempt_auth_succeeded C kind email password
             (mkHookState (world st) true (calls st)) r w1 Hauth Hok).
  unfold handlePostSignIn.
  erewrite invoke_normal by exact Hread.
  unfold resolveWith. rewrite (anon_work_present_nonempty work Hmsgs).
  erewrite read_step by exact Htime.
  erewrite invoke_throw by exact Hcreate.
  cbn. by rewrite <- !app_assoc.
Qed.


End HookProperties.

Lemma anonymous_work_flow_witness :
  Auth.authenticate
    (Auth.mock (Normal Auth.succeeded)
       (Normal (Some (Auth.mkAnonymousWork Auth.user_message Auth.anon_files)))
       (Normal [Auth.project_1]) (Normal (Auth.mkProject "signup-project" 0)))
    Auth.SignUp "new@example.com" "password123" (Auth.initial tt) =
  (Normal Auth.succeeded,
   Auth.mkHookState tt false
     [Auth.CallAuth Auth.SignUp "new@example.com" "password123";
      Auth.CallGetAnonWorkData;
      Auth.CallCreateProject
        (Auth.mkProjectSpec "Design from 10:15:30 AM"
           Auth.user_message Auth.anon_files);
      Auth.CallClearAnonWork; Auth.CallNavigateTo "/signup-project"]).
Proof.
  apply (anonymous_work_flow
           (Auth.mock (Normal Auth.succeeded)
              (Normal (Some (Auth.mkAnonymousWork Auth.user_message Auth.anon_files)))
              (Normal [Auth.project_1]) (Normal (Auth.mkProject "signup-project" 0)))
           Auth.SignUp "new@example.com" "password123" (Auth.initial tt)
           Auth.succeeded
           (Auth.mkAnonymousWork Auth.user_message Auth.anon_files)
           "10:15:30 AM" (Auth.mkProject "signup-project" 0) tt tt tt tt tt tt);
    (reflexivity || discriminate).
Defined.

Lemma anonymous_work_kept_on_failure_witness :
  Auth.authenticate
    (Auth.mock (Normal Auth.succeeded)
       (Normal (Some (Auth.mkAnonymousWork Auth.user_message Auth.anon_files)))
       (Normal []) (Throw (Error "Database error")))
    Auth.SignIn "test@example.com" "password123" (Auth.initial tt) =
  (Throw (Error "Database error"),
   Auth.mkHookState tt false
     [Auth.CallAuth Auth.SignIn "test@example.com" "password123";
      Auth.CallGetAnonWorkData;
      Auth.CallCreateProject
        (Auth.mkProjectSpec "Design from 10:15:30 AM"
           Auth.user_message Auth.anon_files)]).
Proof.
  apply (anonymous_work_kept_on_failure
           (Auth.mock (Normal Auth.succeeded)
              (Normal (Some (Auth.mkAnonymousWork Auth.user_message Auth.anon_files)))
              (Normal []) (Throw (Error "Database error")))
           Auth.SignIn "test@example.com" "password123" (Auth.initial tt)
           Auth.succeeded
           (Auth.mkAnonymousWork Auth.user_message Auth.anon_files)
           "10:15:30 AM" (Error "Database error") tt tt tt tt);
    (reflexivity || discriminate).
Defined.

